(** * Overlay control layer: grid gesture translator and floating handle

    A shallow embedding of

    - [packages/components/src/table-block/view/operation.ts]
      ([useOperation]: the handlers [onAddRow], [onAddCol], [selectCol],
      [selectRow], [deleteSelected], [onAlign]), and
    - the block provider ([BlockProvider]: [#init], [update], [destroy],
      [show], [hide]),

    followed by the properties of the specification that concern them.

    The handlers are imperative JavaScript: they read and write DOM
    attributes, call the command manager, queue animation-frame
    callbacks and may throw.  They are embedded in a state monad whose
    results are JavaScript completions: a thrown exception keeps every
    side effect performed before it. *)

From Stdlib Require Import ZArith List String Bool Lia.
Import ListNotations.
Local Open Scope string_scope.
Local Open Scope list_scope.
Local Open Scope Z_scope.

(* ================================================================== *)
(** ** Completions and the effect monad *)
(* ================================================================== *)

Definition Error := string.

(** How a JavaScript call ends: it returns a value or throws. *)
Inductive Completion (A : Type) : Type :=
| Normal (a : A)
| Throw (e : Error).
Arguments Normal {A} a.
Arguments Throw {A} e.

Section Effects.
Variable S : Type.

Definition Eff (A : Type) : Type := S -> Completion A * S.

Definition ret {A} (a : A) : Eff A := fun s => (Normal a, s).

Definition bind {A B} (m : Eff A) (k : A -> Eff B) : Eff B :=
  fun s =>
    match m s with
    | (Normal a, s') => k a s'
    | (Throw e, s') => (Throw e, s')
    end.

Definition throw {A} (e : Error) : Eff A := fun s => (Throw e, s).

Definition gets {A} (f : S -> A) : Eff A := fun s => (Normal (f s), s).

Definition modify (f : S -> S) : Eff unit := fun s => (Normal tt, f s).

(** [try { m } catch (e) { h e }] *)
Definition try_catch {A} (m : Eff A) (h : Error -> Eff A) : Eff A :=
  fun s =>
    match m s with
    | (Normal a, s') => (Normal a, s')
    | (Throw e, s') => h e s'
    end.

(** The state an effect leaves behind, and how it completes. *)
Definition exec {A} (m : Eff A) (s : S) : S := snd (m s).
Definition completion {A} (m : Eff A) (s : S) : Completion A := fst (m s).
End Effects.

Arguments ret {S A} a _.
Arguments bind {S A B} m k _.
Arguments throw {S A} e _.
Arguments gets {S A} f _.
Arguments modify {S} f _.
Arguments try_catch {S A} m h _.
Arguments exec {S A} m s.
Arguments completion {S A} m s.

Declare Scope eff_scope.
Delimit Scope eff_scope with eff.
Notation "x <- m ;; k" := (bind m (fun x => k))
  (at level 61, m at next level, right associativity) : eff_scope.
Notation "m ;; k" := (bind m (fun _ => k))
  (at level 61, right associativity) : eff_scope.
Local Open Scope eff_scope.

(** [a ?? d]: the nullish coalescing operator. *)
Definition nullish {A} (a : option A) (d : A) : A :=
  match a with Some v => v | None => d end.
Notation "a ?? d" := (nullish a d) (at level 40, left associativity).

(** [data-show]: a [dataset] entry is a string, or missing. *)
Definition DataShow := option string.

(** [show === 'true' ? 'false' : 'true'] *)
Definition toggled (show : DataShow) : DataShow :=
  match show with
  | Some s => if String.eqb s "true" then Some "false" else Some "true"
  | None => Some "true"
  end.

(** An element is displayed when its [data-show] is the string ['true']. *)
Definition visible (show : DataShow) : bool :=
  match show with
  | Some s => String.eqb s "true"
  | None => false
  end.

(** [getPos?: () => number | undefined] and [(getPos?.() ?? 0) + 1]. *)
Definition GetPos := option (unit -> option Z).

Definition call_getPos (getPos : GetPos) : option Z :=
  match getPos with
  | Some f => f tt
  | None => None
  end.

Definition grid_pos (getPos : GetPos) : Z := (call_getPos getPos ?? 0) + 1.

(* ================================================================== *)
(** ** operation.ts: the grid gesture translator *)
(* ================================================================== *)

Module Operation.

Inductive Direction := left | center | right.

(** One call [commands.call(key, payload)] received by the command
    manager. *)
Inductive CommandCall : Type :=
| selectRowCommand (pos index : Z)
| selectColCommand (pos index : Z)
| addRowBeforeCommand
| addRowAfterCommand
| addColBeforeCommand
| addColAfterCommand
| deleteSelectedCellsCommand
| setAlignCommand (direction : Direction).

(** The DOM as the handlers see it. *)
Record HTMLElement := { dataset_show : DataShow }.

(** A row or column handle; [querySelector('.button-group')] finds its
    button group, if it has one. *)
Record HandleElement := { button_group : option HTMLElement }.

Inductive Cell := th | td.
Record TR := { children : list Cell }.

(** The content wrapper, with its [tr] descendants in document order. *)
Record ContentWrapper := { trs : list TR }.

Record EditorView := { editable : bool }.

(** The originating pointer event. *)
Record PointerEvent := {
  defaultPrevented : bool;
  propagationStopped : bool
}.

(** Callbacks handed to [requestAnimationFrame]. *)
Inductive FrameTask := focusEditor.

(** [ctx?: Ctx] is a reference to the editor's container; the slices it
    holds live in the world. *)
Inductive Ctx := editorCtx.

Record World := {
  (* Refs *)
  xLineHandleRef : option HTMLElement;
  contentWrapperRef : option ContentWrapper;
  colHandleRef : option HandleElement;
  rowHandleRef : option HandleElement;
  hoverIndex : Z * Z;
  lineHoverIndex : Z * Z;
  (* ctx slices *)
  editorViewCtx : option EditorView;
  (* command manager: the calls it received, oldest first *)
  commandsCtx : list CommandCall;
  (* browser *)
  frames : list FrameTask;
  focusCalls : nat
}.

Definition M := Eff World.

Definition set_xLineHandleRef (v : option HTMLElement) (w : World) : World :=
  {| xLineHandleRef := v;
     contentWrapperRef := contentWrapperRef w;
     colHandleRef := colHandleRef w;
     rowHandleRef := rowHandleRef w;
     hoverIndex := hoverIndex w;
     lineHoverIndex := lineHoverIndex w;
     editorViewCtx := editorViewCtx w;
     commandsCtx := commandsCtx w;
     frames := frames w;
     focusCalls := focusCalls w |}.

Definition set_colHandleRef (v : option HandleElement) (w : World) : World :=
  {| xLineHandleRef := xLineHandleRef w;
     contentWrapperRef := contentWrapperRef w;
     colHandleRef := v;
     rowHandleRef := rowHandleRef w;
     hoverIndex := hoverIndex w;
     lineHoverIndex := lineHoverIndex w;
     editorViewCtx := editorViewCtx w;
     commandsCtx := commandsCtx w;
     frames := frames w;
     focusCalls := focusCalls w |}.

Definition set_rowHandleRef (v : option HandleElement) (w : World) : World :=
  {| xLineHandleRef := xLineHandleRef w;
     contentWrapperRef := contentWrapperRef w;
     colHandleRef := colHandleRef w;
     rowHandleRef := v;
     hoverIndex := hoverIndex w;
     lineHoverIndex := lineHoverIndex w;
     editorViewCtx := editorViewCtx w;
     commandsCtx := commandsCtx w;
     frames := frames w;
     focusCalls := focusCalls w |}.

Definition set_commandsCtx (v : list CommandCall) (w : World) : World :=
  {| xLineHandleRef := xLineHandleRef w;
     contentWrapperRef := contentWrapperRef w;
     colHandleRef := colHandleRef w;
     rowHandleRef := rowHandleRef w;
     hoverIndex := hoverIndex w;
     lineHoverIndex := lineHoverIndex w;
     editorViewCtx := editorViewCtx w;
     commandsCtx := v;
     frames := frames w;
     focusCalls := focusCalls w |}.

Definition set_frames (v : list FrameTask) (w : World) : World :=
  {| xLineHandleRef := xLineHandleRef w;
     contentWrapperRef := contentWrapperRef w;
     colHandleRef := colHandleRef w;
     rowHandleRef := rowHandleRef w;
     hoverIndex := hoverIndex w;
     lineHoverIndex := lineHoverIndex w;
     editorViewCtx := editorViewCtx w;
     commandsCtx := commandsCtx w;
     frames := v;
     focusCalls := focusCalls w |}.

Definition set_focusCalls (v : nat) (w : World) : World :=
  {| xLineHandleRef := xLineHandleRef w;
     contentWrapperRef := contentWrapperRef w;
     colHandleRef := colHandleRef w;
     rowHandleRef := rowHandleRef w;
     hoverIndex := hoverIndex w;
     lineHoverIndex := lineHoverIndex w;
     editorViewCtx := editorViewCtx w;
     commandsCtx := commandsCtx w;
     frames := frames w;
     focusCalls := v |}.

(** [ctx.get(editorViewCtx)]: throws while the slice is not there. *)
Definition get_editorViewCtx (ctx : Ctx) : M EditorView :=
  fun w =>
    match editorViewCtx w with
    | Some view => (Normal view, w)
    | None => (Throw "Context not found: editorView", w)
    end.

(** [commands.call(key, payload)]: fire and forget. *)
Definition commands_call (c : CommandCall) : M unit :=
  modify (fun w => set_commandsCtx (commandsCtx w ++ [c]) w).

Definition requestAnimationFrame (t : FrameTask) : M unit :=
  modify (fun w => set_frames (frames w ++ [t]) w).

(** [contentWrapperRef.value?.querySelectorAll('tr') ?? []] *)
Definition query_rows (cw : option ContentWrapper) : list TR :=
  option_map trs cw ?? [].

(** [contentWrapperRef.value?.querySelector('tr')?.children ?? []] *)
Definition query_cols (cw : option ContentWrapper) : list Cell :=
  match cw with
  | Some t =>
      match trs t with
      | first :: _ => children first
      | [] => []
      end
  | None => []
  end.

Definition len {A} (l : list A) : Z := Z.of_nat (List.length l).

Section UseOperation.
(** [useOperation(refs, ctx?, getPos?)]; the refs are the world's. *)
Variable ctx : option Ctx.
Variable getPos : GetPos.

Definition onAddRow : M unit :=
  match ctx with
  | None => ret tt
  | Some ctx =>
      xHandle <- gets xLineHandleRef ;;
      match xHandle with
      | None => ret tt
      | Some xHandle =>
          lineHover <- gets lineHoverIndex ;;
          let rowIndex := fst lineHover in
          if rowIndex <? 0 then ret tt
          else
            view <- get_editorViewCtx ctx ;;
            if negb (editable view) then ret tt
            else
              cw <- gets contentWrapperRef ;;
              let rows := query_rows cw in
              let pos := grid_pos getPos in
              (if len rows =? rowIndex then
                 commands_call (selectRowCommand pos (rowIndex - 1)) ;;
                 commands_call addRowAfterCommand
               else
                 commands_call (selectRowCommand pos rowIndex) ;;
                 commands_call addRowBeforeCommand) ;;
              commands_call (selectRowCommand pos rowIndex) ;;
              modify (set_xLineHandleRef
                        (Some {| dataset_show := Some "false" |}))
      end
  end.

Definition onAddCol : M unit :=
  match ctx with
  | None => ret tt
  | Some ctx =>
      xHandle <- gets xLineHandleRef ;;
      match xHandle with
      | None => ret tt
      | Some xHandle =>
          lineHover <- gets lineHoverIndex ;;
          let colIndex := snd lineHover in
          if colIndex <? 0 then ret tt
          else
            view <- get_editorViewCtx ctx ;;
            if negb (editable view) then ret tt
            else
              cw <- gets contentWrapperRef ;;
              let cols := query_cols cw in
              let pos := grid_pos getPos in
              (if len cols =? colIndex then
                 commands_call (selectColCommand pos (colIndex - 1)) ;;
                 commands_call addColAfterCommand
               else
                 commands_call (selectColCommand pos colIndex) ;;
                 commands_call addColBeforeCommand) ;;
              commands_call (selectColCommand pos colIndex)
      end
  end.

(** [if (buttonGroup) buttonGroup.dataset.show = ...] on the handle
    held by a ref. *)
Definition toggle_button_group (h : option HandleElement)
  : option HandleElement :=
  match h with
  | Some {| button_group := Some bg |} =>
      Some {| button_group :=
                Some {| dataset_show := toggled (dataset_show bg) |} |}
  | _ => h
  end.

Definition selectCol : M unit :=
  match ctx with
  | None => ret tt
  | Some ctx =>
      hover <- gets hoverIndex ;;
      let colIndex := snd hover in
      let pos := grid_pos getPos in
      commands_call (selectColCommand pos colIndex) ;;
      modify (fun w => set_colHandleRef
                         (toggle_button_group (colHandleRef w)) w)
  end.

Definition selectRow : M unit :=
  match ctx with
  | None => ret tt
  | Some ctx =>
      hover <- gets hoverIndex ;;
      let rowIndex := fst hover in
      let pos := grid_pos getPos in
      commands_call (selectRowCommand pos rowIndex) ;;
      if 0 <? rowIndex then
        modify (fun w => set_rowHandleRef
                           (toggle_button_group (rowHandleRef w)) w)
      else ret tt
  end.

(** The handlers of pointer events return the event as they leave
    it. *)
Definition preventDefault (e : PointerEvent) : PointerEvent :=
  {| defaultPrevented := true;
     propagationStopped := propagationStopped e |}.

Definition stopPropagation (e : PointerEvent) : PointerEvent :=
  {| defaultPrevented := defaultPrevented e;
     propagationStopped := true |}.

Definition deleteSelected (e : PointerEvent) : M PointerEvent :=
  match ctx with
  | None => ret e
  | Some ctx =>
      view <- get_editorViewCtx ctx ;;
      if negb (editable view) then ret e
      else
        let e := preventDefault e in
        let e := stopPropagation e in
        commands_call deleteSelectedCellsCommand ;;
        requestAnimationFrame focusEditor ;;
        ret e
  end.

Definition onAlign (direction : Direction) (e : PointerEvent)
  : M PointerEvent :=
  match ctx with
  | None => ret e
  | Some ctx =>
      view <- get_editorViewCtx ctx ;;
      if negb (editable view) then ret e
      else
        let e := preventDefault e in
        let e := stopPropagation e in
        commands_call (setAlignCommand direction) ;;
        requestAnimationFrame focusEditor ;;
        ret e
  end.

(** The frame callback [() => ctx.get(editorViewCtx).focus()]. *)
Definition run_frame_task (ctx : Ctx) (t : FrameTask) : M unit :=
  match t with
  | focusEditor =>
      _ <- get_editorViewCtx ctx ;;
      modify (fun w => set_focusCalls (S (focusCalls w)) w)
  end.
End UseOperation.

(** Whether the button group of a handle is displayed, when the handle
    has one. *)
Definition button_group_visible (h : option HandleElement) : option bool :=
  match h with
  | Some {| button_group := Some bg |} => Some (visible (dataset_show bg))
  | _ => None
  end.

(** A grid of three rows and two columns, with its handles, to run the
    handlers on. *)
Definition three_by_two : ContentWrapper :=
  {| trs := [ {| children := [th; th] |};
              {| children := [td; td] |};
              {| children := [td; td] |} ] |}.

Definition example_world (isEditable : bool) (hover lineHover : Z * Z)
  : World :=
  {| xLineHandleRef := Some {| dataset_show := Some "true" |};
     contentWrapperRef := Some three_by_two;
     colHandleRef :=
       Some {| button_group := Some {| dataset_show := Some "false" |} |};
     rowHandleRef :=
       Some {| button_group := Some {| dataset_show := Some "false" |} |};
     hoverIndex := hover;
     lineHoverIndex := lineHover;
     editorViewCtx := Some {| editable := isEditable |};
     commandsCtx := [];
     frames := [];
     focusCalls := 0 |}.

(** The grid sits at document position 10. *)
Definition example_getPos : GetPos := Some (fun _ => Some 10).

Definition example_event : PointerEvent :=
  {| defaultPrevented := false; propagationStopped := false |}.

(** The same world with no content wrapper mounted. *)
Definition example_world_no_grid (lineHover : Z * Z) : World :=
  {| xLineHandleRef := Some {| dataset_show := Some "true" |};
     contentWrapperRef := None;
     colHandleRef := None;
     rowHandleRef := None;
     hoverIndex := (-1, -1);
     lineHoverIndex := lineHover;
     editorViewCtx := Some {| editable := true |};
     commandsCtx := [];
     frames := [];
     focusCalls := 0 |}.

(** What a handler reads but never writes: the grid, the hover indices
    and the editor view. *)
Definition same_inputs (w w' : World) : Prop :=
  contentWrapperRef w' = contentWrapperRef w /\
  hoverIndex w' = hoverIndex w /\
  lineHoverIndex w' = lineHoverIndex w /\
  editorViewCtx w' = editorViewCtx w /\
  focusCalls w' = focusCalls w.

(** A select command carries the position [pos]. *)
Definition carries_pos (pos : Z) (c : CommandCall) : Prop :=
  match c with
  | selectRowCommand p _ | selectColCommand p _ => p = pos
  | _ => True
  end.

(** From [w] to [w'] the command manager received at most [n] more
    calls, after the ones it had, each select among them at [pos]. *)
Definition appends_calls (n : nat) (pos : Z) (w w' : World) : Prop :=
  exists calls,
    commandsCtx w' = commandsCtx w ++ calls /\
    (List.length calls <= n)%nat /\
    Forall (carries_pos pos) calls.

End Operation.


(* ================================================================== *)
(** ** The block provider: the floating handle controller *)
(* ================================================================== *)

Module BlockProvider.

Definition NodeId := nat.

(** [document.body] *)
Definition document_body : NodeId := 0%nat.

Record DOMRect := {
  rect_x : Z;
  rect_y : Z;
  rect_width : Z;
  rect_height : Z
}.

(** Modelled from the spec: [ActiveNode] of [./types], which the sources
    at hand only import.  The spec gives it as
    [{ element, documentPosition, domRect }]; the provider reads its
    element as [active.el]. *)
Record ActiveNode := {
  el : NodeId;
  documentPosition : Z;
  domRect : DOMRect
}.

(** Types of the position solver ([@floating-ui/dom]), as far as the
    provider builds them. *)
Definition Placement := string.
Definition OffsetOptions := Z.

Inductive Middleware : Type :=
| flip
| offset (options : OffsetOptions)
| custom (name : string).

(** A key of an object literal typed [Partial<...>]: not there, or there
    with its value, which may be [undefined]. *)
Inductive Property (A : Type) : Type :=
| absent
| present (v : option A).
Arguments absent {A}.
Arguments present {A} v.

(** [{ key: a, ...o }] for the key [key]: a key of [o] wins. *)
Definition spread {A} (a : option A) (o : Property A) : option A :=
  match o with
  | absent => a
  | present v => v
  end.

(** [Partial<ComputePositionConfig>] *)
Record PartialComputePositionConfig := {
  partial_placement : Property Placement;
  partial_strategy : Property string;
  partial_middleware : Property (list Middleware)
}.

(** The third argument of [computePosition]. *)
Record ComputePositionConfig := {
  placement : option Placement;
  strategy : option string;
  middleware : option (list Middleware)
}.

Record EditorView := {
  dom : NodeId;
  dom_parentElement : option NodeId
}.

Inductive Ctx := editorCtx.

Record DeriveContext := {
  dc_ctx : Ctx;
  dc_active : ActiveNode;
  editorDom : NodeId;
  blockDom : NodeId
}.

(** [getBoundingClientRect] of the virtual element: the rectangle
    [getPosition] derives, or else the one of the active node's element,
    measured when the solver asks. *)
Inductive BoundingClientRect : Type :=
| derivedRect (r : DOMRect)
| rectOf (n : NodeId).

Record VirtualElement := {
  contextElement : NodeId;
  getBoundingClientRect : BoundingClientRect
}.

Record BlockProviderOptions := {
  content : NodeId;
  getOffset : option (DeriveContext -> OffsetOptions);
  getPosition : option (DeriveContext -> DOMRect);
  getPlacement : option (DeriveContext -> Placement);
  options_middleware : option (list Middleware);
  floatingUIOptions : option PartialComputePositionConfig;
  root : option NodeId
}.

(** The state of the provider's element [#element]. *)
Record HTMLElement := {
  dataset_show : DataShow;
  style_left : option string;
  style_top : option string;
  parentNode : option NodeId;
  draggable : bool;
  (* the listeners the service attached with [addEvent] *)
  eventListeners : bool
}.

(** Who receives the messages of the service. *)
Inductive Subscriber := thisProvider | otherSubscriber (n : nat).

(** Modelled from the spec: the block service of [./block-service], which
    the sources at hand only import.  Its binding protocol is
    [bind(ctx, handler)], [unbind()], [addEvent(element)],
    [removeEvent(element)]; it has one callback slot, written by [bind]
    (the last write wins) and cleared by [unbind], and both [unbind] and
    [removeEvent] tolerate being called again. *)
Record BlockService := { notify : option Subscriber }.

Inductive ServiceRef := blockService.

Inductive Message := msg_hide | msg_show (active : ActiveNode).

(** A call of [computePosition] whose promise is not settled yet. *)
Record Computation := {
  reference : VirtualElement;
  floating : NodeId;
  config : ComputePositionConfig
}.

(** How the promise of [computePosition] settles.  The coordinates are
    JavaScript numbers; they are taken as integers here, nothing below
    depends on their values. *)
Inductive Settlement := fulfilled (x y : Z) | rejected (reason : Error).

(** Callbacks handed to [requestAnimationFrame]. *)
Inductive FrameTask := updateCallback.

Record World := {
  (* the fields of the provider that change *)
  element : HTMLElement;
  service : option ServiceRef;
  activeNode : option ActiveNode;
  initialized : bool;
  (* ctx slices: the editor view, once mounted; whether the service is
     registered *)
  editorViewCtx : option EditorView;
  blockServiceInstance : bool;
  (* the service object *)
  serviceState : BlockService;
  (* browser and solver *)
  frames : list FrameTask;
  computations : list Computation;
  console : list Error
}.

Definition M := Eff World.

Definition set_element (v : HTMLElement) (w : World) : World :=
  {| element := v;
     service := service w;
     activeNode := activeNode w;
     initialized := initialized w;
     editorViewCtx := editorViewCtx w;
     blockServiceInstance := blockServiceInstance w;
     serviceState := serviceState w;
     frames := frames w;
     computations := computations w;
     console := console w |}.

Definition set_service (v : option ServiceRef) (w : World) : World :=
  {| element := element w;
     service := v;
     activeNode := activeNode w;
     initialized := initialized w;
     editorViewCtx := editorViewCtx w;
     blockServiceInstance := blockServiceInstance w;
     serviceState := serviceState w;
     frames := frames w;
     computations := computations w;
     console := console w |}.

Definition set_activeNode (v : option ActiveNode) (w : World) : World :=
  {| element := element w;
     service := service w;
     activeNode := v;
     initialized := initialized w;
     editorViewCtx := editorViewCtx w;
     blockServiceInstance := blockServiceInstance w;
     serviceState := serviceState w;
     frames := frames w;
     computations := computations w;
     console := console w |}.

Definition set_initialized (v : bool) (w : World) : World :=
  {| element := element w;
     service := service w;
     activeNode := activeNode w;
     initialized := v;
     editorViewCtx := editorViewCtx w;
     blockServiceInstance := blockServiceInstance w;
     serviceState := serviceState w;
     frames := frames w;
     computations := computations w;
     console := console w |}.

Definition set_editorViewCtx (v : option EditorView) (w : World) : World :=
  {| element := element w;
     service := service w;
     activeNode := activeNode w;
     initialized := initialized w;
     editorViewCtx := v;
     blockServiceInstance := blockServiceInstance w;
     serviceState := serviceState w;
     frames := frames w;
     computations := computations w;
     console := console w |}.

Definition set_blockServiceInstance (v : bool) (w : World) : World :=
  {| element := element w;
     service := service w;
     activeNode := activeNode w;
     initialized := initialized w;
     editorViewCtx := editorViewCtx w;
     blockServiceInstance := v;
     serviceState := serviceState w;
     frames := frames w;
     computations := computations w;
     console := console w |}.

Definition set_serviceState (v : BlockService) (w : World) : World :=
  {| element := element w;
     service := service w;
     activeNode := activeNode w;
     initialized := initialized w;
     editorViewCtx := editorViewCtx w;
     blockServiceInstance := blockServiceInstance w;
     serviceState := v;
     frames := frames w;
     computations := computations w;
     console := console w |}.

Definition set_frames (v : list FrameTask) (w : World) : World :=
  {| element := element w;
     service := service w;
     activeNode := activeNode w;
     initialized := initialized w;
     editorViewCtx := editorViewCtx w;
     blockServiceInstance := blockServiceInstance w;
     serviceState := serviceState w;
     frames := v;
     computations := computations w;
     console := console w |}.

Definition set_computations (v : list Computation) (w : World) : World :=
  {| element := element w;
     service := service w;
     activeNode := activeNode w;
     initialized := initialized w;
     editorViewCtx := editorViewCtx w;
     blockServiceInstance := blockServiceInstance w;
     serviceState := serviceState w;
     frames := frames w;
     computations := v;
     console := console w |}.

Definition set_console (v : list Error) (w : World) : World :=
  {| element := element w;
     service := service w;
     activeNode := activeNode w;
     initialized := initialized w;
     editorViewCtx := editorViewCtx w;
     blockServiceInstance := blockServiceInstance w;
     serviceState := serviceState w;
     frames := frames w;
     computations := computations w;
     console := v |}.

(** Writes to the element. *)
Definition with_dataset_show (v : DataShow) (e : HTMLElement) : HTMLElement :=
  {| dataset_show := v;
     style_left := style_left e;
     style_top := style_top e;
     parentNode := parentNode e;
     draggable := draggable e;
     eventListeners := eventListeners e |}.

Definition with_style (l t : string) (e : HTMLElement) : HTMLElement :=
  {| dataset_show := dataset_show e;
     style_left := Some l;
     style_top := Some t;
     parentNode := parentNode e;
     draggable := draggable e;
     eventListeners := eventListeners e |}.

Definition with_parentNode (v : option NodeId) (e : HTMLElement) : HTMLElement :=
  {| dataset_show := dataset_show e;
     style_left := style_left e;
     style_top := style_top e;
     parentNode := v;
     draggable := draggable e;
     eventListeners := eventListeners e |}.

Definition with_draggable (v : bool) (e : HTMLElement) : HTMLElement :=
  {| dataset_show := dataset_show e;
     style_left := style_left e;
     style_top := style_top e;
     parentNode := parentNode e;
     draggable := v;
     eventListeners := eventListeners e |}.

Definition with_eventListeners (v : bool) (e : HTMLElement) : HTMLElement :=
  {| dataset_show := dataset_show e;
     style_left := style_left e;
     style_top := style_top e;
     parentNode := parentNode e;
     draggable := draggable e;
     eventListeners := v |}.

Definition update_element (f : HTMLElement -> HTMLElement) : M unit :=
  modify (fun w => set_element (f (element w)) w).

(** [ctx.get(editorViewCtx)]: throws while the view is not there. *)
Definition get_editorViewCtx (ctx : Ctx) : M EditorView :=
  fun w =>
    match editorViewCtx w with
    | Some view => (Normal view, w)
    | None => (Throw "Context not found: editorView", w)
    end.

(** [ctx.get(blockServiceInstance.key)] *)
Definition get_blockServiceInstance (ctx : Ctx) : M ServiceRef :=
  fun w =>
    if blockServiceInstance w then (Normal blockService, w)
    else (Throw "Context not found: blockService", w).

(** The service's methods. *)
Definition service_bind (s : ServiceRef) (handler : Subscriber) : M unit :=
  modify (set_serviceState {| notify := Some handler |}).

Definition service_unBind (s : ServiceRef) : M unit :=
  modify (set_serviceState {| notify := None |}).

Definition service_addEvent (s : ServiceRef) : M unit :=
  update_element (with_eventListeners true).

Definition service_removeEvent (s : ServiceRef) : M unit :=
  update_element (with_eventListeners false).

(** [`${x}px`] *)
Definition digit (n : nat) : string :=
  match n with
  | 0 => "0" | 1 => "1" | 2 => "2" | 3 => "3" | 4 => "4"
  | 5 => "5" | 6 => "6" | 7 => "7" | 8 => "8" | _ => "9"
  end%nat.

Fixpoint digits (fuel n : nat) (acc : string) : string :=
  match fuel with
  | O => acc
  | S fuel' =>
      let acc' := (digit (n mod 10) ++ acc)%string in
      match (n / 10)%nat with
      | O => acc'
      | q => digits fuel' q acc'
      end
  end.

Definition number_toString (x : Z) : string :=
  let n := Z.abs_nat x in
  let s := digits (S n) n "" in
  if x <? 0 then ("-" ++ s)%string else s.

Definition px (x : Z) : string := (number_toString x ++ "px")%string.

Section Provider.
(** The read-only fields set by the constructor. *)
Variable options : BlockProviderOptions.

Definition ctx : Ctx := editorCtx.

(** Hide the block. *)
Definition hide : M unit :=
  update_element (with_dataset_show (Some "false")).

(** The state [new BlockProvider(options)] starts from: the content
    element as it is handed over, then [this.hide()].  The service may
    already be bound, to someone else. *)
Definition constructor (contentElement : HTMLElement)
    (view : option EditorView) (registered : bool) (bound : option nat)
  : World :=
  exec hide
    {| element := contentElement;
       service := None;
       activeNode := None;
       initialized := false;
       editorViewCtx := view;
       blockServiceInstance := registered;
       serviceState := {| notify := option_map otherSubscriber bound |};
       frames := [];
       computations := [];
       console := [] |}.

(** [middleware = [flip()]; if (this.#getOffset) middleware.push(...)] *)
Definition internal_middleware (deriveContext : DeriveContext)
  : list Middleware :=
  [flip] ++
  match getOffset options with
  | Some f => [offset (f deriveContext)]
  | None => []
  end.

Definition computePosition (r : VirtualElement) (f : NodeId)
    (c : ComputePositionConfig) : M unit :=
  modify (fun w =>
    set_computations
      (computations w ++ [{| reference := r; floating := f; config := c |}])
      w).

(** The pieces [show] builds before it calls the solver. *)
Definition derive_context (view : EditorView) (active : ActiveNode)
  : DeriveContext :=
  {| dc_ctx := ctx;
     dc_active := active;
     editorDom := dom view;
     blockDom := content options |}.

Definition virtual_element (deriveContext : DeriveContext) : VirtualElement :=
  let dom := el (dc_active deriveContext) in
  {| contextElement := dom;
     getBoundingClientRect :=
       match getPosition options with
       | Some f => derivedRect (f deriveContext)
       | None => rectOf dom
       end |}.

(** [{ placement: ..., middleware: [...middleware, ...this.#middleware],
       ...this.#floatingUIOptions }] *)
Definition solver_config (deriveContext : DeriveContext)
  : ComputePositionConfig :=
  let middleware := internal_middleware deriveContext in
  let floatingUIOptions :=
    floatingUIOptions options ??
      {| partial_placement := absent;
         partial_strategy := absent;
         partial_middleware := absent |} in
  {| placement :=
       spread
         (Some match getPlacement options with
               | Some f => f deriveContext
               | None => "left"
               end)
         (partial_placement floatingUIOptions);
     middleware :=
       spread (Some (middleware ++ (options_middleware options ?? [])))
              (partial_middleware floatingUIOptions);
     strategy := spread None (partial_strategy floatingUIOptions) |}.

(** Show the block. *)
Definition show (active : ActiveNode) : M unit :=
  view <- get_editorViewCtx ctx ;;
  let deriveContext := derive_context view active in
  computePosition (virtual_element deriveContext) (content options)
    (solver_config deriveContext).

(** [.then(({ x, y }) => ...)] and [.catch(console.error)] *)
Definition on_fulfilled (x y : Z) : M unit :=
  update_element (with_style (px x) (px y)) ;;
  update_element (with_dataset_show (Some "true")).

Definition console_error (e : Error) : M unit :=
  modify (fun w => set_console (console w ++ [e]) w).

Fixpoint remove_nth {A} (n : nat) (l : list A) : list A :=
  match n, l with
  | _, [] => []
  | O, _ :: l' => l'
  | S n', a :: l' => a :: remove_nth n' l'
  end.

(** The promise of the [i]-th computation in flight settles. *)
Definition settle (i : nat) (s : Settlement) : M unit :=
  pending <- gets computations ;;
  match nth_error pending i with
  | None => ret tt
  | Some _ =>
      modify (set_computations (remove_nth i pending)) ;;
      match s with
      | fulfilled x y => on_fulfilled x y
      | rejected reason => console_error reason
      end
  end.

(** The handler [#init] binds. *)
Definition on_message (message : Message) : M unit :=
  match message with
  | msg_hide =>
      hide ;;
      modify (set_activeNode None)
  | msg_show active =>
      show active ;;
      modify (set_activeNode (Some active))
  end.

(** [#init()] *)
Definition init : M unit :=
  view <- get_editorViewCtx ctx ;;
  let root :=
    match root options with
    | Some r => r
    | None => dom_parentElement view ?? document_body
    end in
  update_element (with_parentNode (Some root)) ;;
  service <- get_blockServiceInstance ctx ;;
  service_bind service thisProvider ;;
  modify (set_service (Some service)) ;;
  service_addEvent service ;;
  update_element (with_draggable true).

(** The callback [update] hands to [requestAnimationFrame]. *)
Definition update_callback : M unit :=
  is_initialized <- gets initialized ;;
  if negb is_initialized then
    try_catch (init ;; modify (set_initialized true)) (fun _ => ret tt)
  else ret tt.

(** Update provider state by editor view. *)
Definition update : M unit :=
  modify (fun w => set_frames (frames w ++ [updateCallback]) w).

(** Destroy the block. *)
Definition destroy : M unit :=
  s <- gets service ;;
  match s with Some s => service_unBind s | None => ret tt end ;;
  s <- gets service ;;
  match s with Some s => service_removeEvent s | None => ret tt end ;;
  update_element (with_parentNode None).

(** The browser runs the oldest queued frame callback. *)
Definition run_frame : M unit :=
  queue <- gets frames ;;
  match queue with
  | [] => ret tt
  | updateCallback :: rest =>
      modify (set_frames rest) ;;
      update_callback
  end.

(** The service sends a message to whoever is bound. *)
Definition service_notify (message : Message) : M unit :=
  svc <- gets serviceState ;;
  match notify svc with
  | Some thisProvider => on_message message
  | _ => ret tt
  end.

(** What can happen to a provider, one event at a time: calls of its
    public methods, the browser running a frame callback, a promise
    settling, the service notifying, and the surroundings changing (the
    view is mounted or replaced, the service gets registered, another
    subscriber binds to the service or unbinds). *)
Inductive Event : Type :=
| ev_update
| ev_destroy
| ev_show (active : ActiveNode)
| ev_hide
| ev_frame
| ev_settle (i : nat) (s : Settlement)
| ev_notify (message : Message)
| ev_view (view : option EditorView)
| ev_register
| ev_foreign_bind (n : nat)
| ev_foreign_unbind.

Definition handle (ev : Event) : M unit :=
  match ev with
  | ev_update => update
  | ev_destroy => destroy
  | ev_show active => show active
  | ev_hide => hide
  | ev_frame => run_frame
  | ev_settle i s => settle i s
  | ev_notify message => service_notify message
  | ev_view view => modify (set_editorViewCtx view)
  | ev_register => modify (set_blockServiceInstance true)
  | ev_foreign_bind n =>
      modify (set_serviceState {| notify := Some (otherSubscriber n) |})
  | ev_foreign_unbind => modify (set_serviceState {| notify := None |})
  end.

Definition step (ev : Event) (w : World) : World := exec (handle ev) w.

Definition run (evs : list Event) (w : World) : World :=
  fold_left (fun w ev => step ev w) evs w.

(** An event initializes when it turns [#initialized] on; [update]'s
    callback does so right after [#init] returned. *)
Definition initializes (ev : Event) (w : World) : bool :=
  negb (initialized w) && initialized (step ev w).

Fixpoint successful_inits (evs : list Event) (w : World) : nat :=
  match evs with
  | [] => 0
  | ev :: evs' =>
      ((if initializes ev w then 1 else 0) + successful_inits evs' (step ev w))%nat
  end.

(** One pass of [update()]: the call, then the frame it asked for. *)
Definition update_pass : M unit := update ;; run_frame.

(** What holds of a provider throughout its life: [#service] is set only
    by an [#init] that returns, and the service is bound to this provider
    only through [#service]. *)
Definition consistent (w : World) : Prop :=
  (service w <> None -> initialized w = true) /\
  (notify (serviceState w) = Some thisProvider -> service w <> None).

End Provider.

(** A provider to run: no derivation functions, and one with all of
    them and solver options that carry their own [middleware]. *)
Definition plain_options : BlockProviderOptions :=
  {| content := 7%nat;
     getOffset := None;
     getPosition := None;
     getPlacement := None;
     options_middleware := None;
     floatingUIOptions := None;
     root := None |}.

Definition overriding_options : BlockProviderOptions :=
  {| content := 7%nat;
     getOffset := Some (fun _ => 16);
     getPosition := None;
     getPlacement := None;
     options_middleware := Some [custom "shift"];
     floatingUIOptions :=
       Some {| partial_placement := absent;
               partial_strategy := absent;
               partial_middleware := present (Some [custom "arrow"]) |};
     root := None |}.

Definition example_element : HTMLElement :=
  {| dataset_show := None;
     style_left := None;
     style_top := None;
     parentNode := None;
     draggable := false;
     eventListeners := false |}.

Definition example_view : EditorView :=
  {| dom := 3%nat; dom_parentElement := Some 2%nat |}.

Definition example_active : ActiveNode :=
  {| el := 5%nat;
     documentPosition := 42;
     domRect := {| rect_x := 10; rect_y := 20;
                   rect_width := 300; rect_height := 24 |} |}.

(** Whether a computation in flight was given a chain that starts with
    the flip rule. *)
Definition flip_first (c : Computation) : bool :=
  match middleware (config c) with
  | Some (flip :: _) => true
  | _ => false
  end.

(** [get active()]: the context of current active node. *)
Definition get_active : M (option ActiveNode) := gets activeNode.

(** The events that can write the element's [data-show]: [hide()], a
    fulfilled computation, and a message of the service. *)
Definition writes_data_show (ev : Event) : bool :=
  match ev with
  | ev_hide => true
  | ev_settle _ (fulfilled _ _) => true
  | ev_notify msg_hide => true
  | _ => false
  end.

(** A second node to point at. *)
Definition other_active : ActiveNode :=
  {| el := 6%nat;
     documentPosition := 57;
     domRect := {| rect_x := 10; rect_y := 80;
                   rect_width := 300; rect_height := 24 |} |}.

(** A provider with every derivation function supplied, and a root. *)
Definition derived_options : BlockProviderOptions :=
  {| content := 7%nat;
     getOffset := Some (fun _ => 16);
     getPosition :=
       Some (fun dc => {| rect_x := rect_x (domRect (dc_active dc)) - 4;
                          rect_y := rect_y (domRect (dc_active dc));
                          rect_width := 8;
                          rect_height := 8 |});
     getPlacement := Some (fun _ => "right");
     options_middleware := None;
     floatingUIOptions :=
       Some {| partial_placement := present (Some "top");
               partial_strategy := absent;
               partial_middleware := absent |};
     root := Some 9%nat |}.

End BlockProvider.

(* ================================================================== *)
(** ** Properties of the grid gesture translator *)
(* ================================================================== *)

Module OperationSpec.
Import Operation.

(** Symbolic execution of a handler: unfold the monad and the primitive
    effects, then compute. *)
Ltac unfold_effects :=
  unfold get_editorViewCtx, commands_call, requestAnimationFrame in *;
  unfold exec, completion, bind, gets, modify, ret in *.

Ltac run_handler := unfold_effects; cbn in *.

Lemma eqb_len_swap (n i : Z) : (n =? i) = (i =? n).
Proof. apply Z.eqb_sym. Qed.

(** The position handed to the select commands is the grid's document
    position plus one; with no position at hand it is [1]. *)
Lemma grid_pos_of_position (getPos : GetPos) (p : Z) :
  call_getPos getPos = Some p -> grid_pos getPos = p + 1.
Proof. unfold grid_pos. intros ->. reflexivity. Qed.

Lemma grid_pos_default (getPos : GetPos) :
  call_getPos getPos = None -> grid_pos getPos = 1.
Proof. unfold grid_pos. intros ->. reflexivity. Qed.

(** What [onAddRow] does once its guards are passed. *)
Lemma onAddRow_run (getPos : GetPos) (w : World)
    (view : EditorView) (xHandle : HTMLElement) :
  editorViewCtx w = Some view ->
  editable view = true ->
  xLineHandleRef w = Some xHandle ->
  0 <= fst (lineHoverIndex w) ->
  let rowIndex := fst (lineHoverIndex w) in
  let pos := grid_pos getPos in
  onAddRow (Some editorCtx) getPos w =
    (Normal tt,
     set_xLineHandleRef (Some {| dataset_show := Some "false" |})
       (set_commandsCtx
          (commandsCtx w ++
           (if len (query_rows (contentWrapperRef w)) =? rowIndex
            then [selectRowCommand pos (rowIndex - 1); addRowAfterCommand]
            else [selectRowCommand pos rowIndex; addRowBeforeCommand]) ++
           [selectRowCommand pos rowIndex])
          w)).
Proof.
  intros Hview Hed Hx Hge. cbv zeta.
  unfold onAddRow. run_handler.
  rewrite Hx. cbn.
  destruct (Z.ltb_spec (fst (lineHoverIndex w)) 0) as [Hlt | _]; [lia |].
  rewrite Hview. cbn. rewrite Hed. cbn.
  destruct (len (query_rows (contentWrapperRef w)) =? fst (lineHoverIndex w));
    cbn; unfold set_xLineHandleRef, set_commandsCtx; cbn;
    rewrite <- !app_assoc; reflexivity.
Qed.

(** C1. An insert-row gesture whose hover index [rowIndex] lies in
    [0, rowCount], on an editable surface and with the line handle (the
    gesture's origin) present, sends exactly three calls to the command
    manager, in this order: when [rowIndex = rowCount], select-row at
    [rowIndex - 1] and add-row-after, otherwise select-row at [rowIndex]
    and add-row-before; then in both cases select-row at [rowIndex].
    Every select-row carries [pos], the grid's document position plus
    one. *)
Theorem onAddRow_command_sequence
    (getPos : GetPos) (w : World) (view : EditorView) (xHandle : HTMLElement) :
  editorViewCtx w = Some view ->
  editable view = true ->
  xLineHandleRef w = Some xHandle ->
  let rowIndex := fst (lineHoverIndex w) in
  let rowCount := len (query_rows (contentWrapperRef w)) in
  0 <= rowIndex <= rowCount ->
  let pos := grid_pos getPos in
  let w' := exec (onAddRow (Some editorCtx) getPos) w in
  commandsCtx w' =
    commandsCtx w ++
    (if rowIndex =? rowCount
     then [selectRowCommand pos (rowIndex - 1);
           addRowAfterCommand;
           selectRowCommand pos rowIndex]
     else [selectRowCommand pos rowIndex;
           addRowBeforeCommand;
           selectRowCommand pos rowIndex])
  /\ completion (onAddRow (Some editorCtx) getPos) w = Normal tt
  /\ (forall p, call_getPos getPos = Some p -> pos = p + 1).
Proof.
  intros Hview Hed Hx rowIndex rowCount Hrange pos w'.
  assert (Hrun := onAddRow_run getPos w view xHandle Hview Hed Hx (proj1 Hrange)).
  cbv zeta in Hrun. fold rowIndex rowCount pos in Hrun.
  subst w'. unfold exec, completion. rewrite Hrun. cbn.
  repeat split.
  - rewrite (eqb_len_swap rowCount rowIndex).
    destruct (rowIndex =? rowCount); reflexivity.
  - intros p Hp. apply grid_pos_of_position, Hp.
Qed.

Example onAddRow_append :
  commandsCtx
    (exec (onAddRow (Some editorCtx) example_getPos)
          (example_world true (-1, -1) (3, -1))) =
  [selectRowCommand 11 2; addRowAfterCommand; selectRowCommand 11 3].
Proof. reflexivity. Qed.

Example onAddRow_before :
  commandsCtx
    (exec (onAddRow (Some editorCtx) example_getPos)
          (example_world true (-1, -1) (1, -1))) =
  [selectRowCommand 11 1; addRowBeforeCommand; selectRowCommand 11 1].
Proof. reflexivity. Qed.

Lemma onAddRow_command_sequence_witness :
  let w := example_world true (-1, -1) (3, -1) in
  (editorViewCtx w = Some {| editable := true |} /\
   xLineHandleRef w = Some {| dataset_show := Some "true" |} /\
   0 <= fst (lineHoverIndex w) <= len (query_rows (contentWrapperRef w))) /\
  commandsCtx (exec (onAddRow (Some editorCtx) example_getPos) w) =
    [selectRowCommand 11 2; addRowAfterCommand; selectRowCommand 11 3].
Proof.
  cbv zeta. split.
  - repeat split; cbn; lia.
  - apply (onAddRow_command_sequence example_getPos
             (example_world true (-1, -1) (3, -1))
             {| editable := true |} {| dataset_show := Some "true" |}
             eq_refl eq_refl eq_refl).
    cbn; lia.
Defined.

(** What [onAddCol] does once its guards are passed. *)
Lemma onAddCol_run (getPos : GetPos) (w : World)
    (view : EditorView) (xHandle : HTMLElement) :
  editorViewCtx w = Some view ->
  editable view = true ->
  xLineHandleRef w = Some xHandle ->
  0 <= snd (lineHoverIndex w) ->
  let colIndex := snd (lineHoverIndex w) in
  let pos := grid_pos getPos in
  onAddCol (Some editorCtx) getPos w =
    (Normal tt,
     set_commandsCtx
       (commandsCtx w ++
        (if len (query_cols (contentWrapperRef w)) =? colIndex
         then [selectColCommand pos (colIndex - 1); addColAfterCommand]
         else [selectColCommand pos colIndex; addColBeforeCommand]) ++
        [selectColCommand pos colIndex])
       w).
Proof.
  intros Hview Hed Hx Hge. cbv zeta.
  unfold onAddCol. run_handler.
  rewrite Hx. cbn.
  destruct (Z.ltb_spec (snd (lineHoverIndex w)) 0) as [Hlt | _]; [lia |].
  rewrite Hview. cbn. rewrite Hed. cbn.
  destruct (len (query_cols (contentWrapperRef w)) =? snd (lineHoverIndex w));
    cbn; unfold set_commandsCtx; cbn;
    rewrite <- !app_assoc; reflexivity.
Qed.

(** The guards of the four mutating handlers. *)
Lemma onAddRow_not_editable ctx getPos w view :
  editorViewCtx w = Some view -> editable view = false ->
  onAddRow ctx getPos w = (Normal tt, w).
Proof.
  intros Hview Hed. unfold onAddRow. run_handler.
  destruct ctx as [c |]; [| reflexivity].
  destruct (xLineHandleRef w); [| reflexivity].
  destruct (fst (lineHoverIndex w) <? 0); [reflexivity |].
  rewrite Hview. cbn. rewrite Hed. reflexivity.
Qed.

Lemma onAddCol_not_editable ctx getPos w view :
  editorViewCtx w = Some view -> editable view = false ->
  onAddCol ctx getPos w = (Normal tt, w).
Proof.
  intros Hview Hed. unfold onAddCol. run_handler.
  destruct ctx as [c |]; [| reflexivity].
  destruct (xLineHandleRef w); [| reflexivity].
  destruct (snd (lineHoverIndex w) <? 0); [reflexivity |].
  rewrite Hview. cbn. rewrite Hed. reflexivity.
Qed.

Lemma deleteSelected_not_editable ctx e w view :
  editorViewCtx w = Some view -> editable view = false ->
  deleteSelected ctx e w = (Normal e, w).
Proof.
  intros Hview Hed. unfold deleteSelected. run_handler.
  destruct ctx as [c |]; [| reflexivity].
  rewrite Hview. cbn. rewrite Hed. reflexivity.
Qed.

Lemma onAlign_not_editable ctx direction e w view :
  editorViewCtx w = Some view -> editable view = false ->
  onAlign ctx direction e w = (Normal e, w).
Proof.
  intros Hview Hed. unfold onAlign. run_handler.
  destruct ctx as [c |]; [| reflexivity].
  rewrite Hview. cbn. rewrite Hed. reflexivity.
Qed.

(** C2. On a surface that is not editable, none of the handlers that
    mutate the document (insert row, insert column, delete selection, set
    alignment) calls the command manager: each returns leaving the whole
    world, and the pointer event, as they were; in particular the list of
    calls the command manager received is the same. *)
Theorem non_editable_issues_no_command
    (ctx : option Ctx) (getPos : GetPos) (direction : Direction)
    (e : PointerEvent) (w : World) (view : EditorView) :
  editorViewCtx w = Some view ->
  editable view = false ->
  (onAddRow ctx getPos w = (Normal tt, w) /\
   onAddCol ctx getPos w = (Normal tt, w) /\
   deleteSelected ctx e w = (Normal e, w) /\
   onAlign ctx direction e w = (Normal e, w)) /\
  (commandsCtx (exec (onAddRow ctx getPos) w) = commandsCtx w /\
   commandsCtx (exec (onAddCol ctx getPos) w) = commandsCtx w /\
   commandsCtx (exec (deleteSelected ctx e) w) = commandsCtx w /\
   commandsCtx (exec (onAlign ctx direction e) w) = commandsCtx w).
Proof.
  intros Hview Hed.
  pose proof (onAddRow_not_editable ctx getPos w view Hview Hed) as Hrow.
  pose proof (onAddCol_not_editable ctx getPos w view Hview Hed) as Hcol.
  pose proof (deleteSelected_not_editable ctx e w view Hview Hed) as Hdel.
  pose proof (onAlign_not_editable ctx direction e w view Hview Hed) as Hal.
  unfold exec. rewrite Hrow, Hcol, Hdel, Hal. cbn. tauto.
Qed.

Lemma non_editable_issues_no_command_witness :
  let w := example_world false (1, 1) (1, 1) in
  (editorViewCtx w = Some {| editable := false |}) /\
  commandsCtx (exec (onAddRow (Some editorCtx) example_getPos) w) = [] /\
  commandsCtx (exec (onAddCol (Some editorCtx) example_getPos) w) = [] /\
  commandsCtx (exec (deleteSelected (Some editorCtx) example_event) w) = [] /\
  commandsCtx (exec (onAlign (Some editorCtx) center example_event) w) = [].
Proof.
  cbv zeta. split; [reflexivity |].
  exact (proj2 (non_editable_issues_no_command (Some editorCtx) example_getPos
                  center example_event (example_world false (1, 1) (1, 1))
                  {| editable := false |} eq_refl eq_refl)).
Defined.

(** The same handlers on an editable surface do call the command
    manager. *)
Example deleteSelected_editable :
  deleteSelected (Some editorCtx) example_event
    (example_world true (1, 1) (-1, -1)) =
  (Normal {| defaultPrevented := true; propagationStopped := true |},
   set_frames [focusEditor]
     (set_commandsCtx [deleteSelectedCellsCommand]
        (example_world true (1, 1) (-1, -1)))).
Proof. reflexivity. Qed.

Example onAlign_editable :
  commandsCtx
    (exec (onAlign (Some editorCtx) right example_event)
          (example_world true (1, 1) (-1, -1))) =
  [setAlignCommand right].
Proof. reflexivity. Qed.

(** C3. An insert-column gesture (editable surface, line handle present,
    hover index [colIndex >= 0]) follows the algorithm of insert-row on
    columns: when [colIndex = colCount], select-col at [colIndex - 1] and
    add-col-after, otherwise select-col at [colIndex] and add-col-before,
    then select-col at [colIndex].  It leaves the line handle, and so its
    [data-show] flag, as it was, whereas insert-row ends by setting that
    flag to ['false']. *)
Theorem onAddCol_sequence_keeps_line_handle
    (getPos : GetPos) (w : World) (view : EditorView) (xHandle : HTMLElement) :
  editorViewCtx w = Some view ->
  editable view = true ->
  xLineHandleRef w = Some xHandle ->
  let colIndex := snd (lineHoverIndex w) in
  let colCount := len (query_cols (contentWrapperRef w)) in
  let rowIndex := fst (lineHoverIndex w) in
  let pos := grid_pos getPos in
  (0 <= colIndex ->
   let w' := exec (onAddCol (Some editorCtx) getPos) w in
   commandsCtx w' =
     commandsCtx w ++
     (if colIndex =? colCount
      then [selectColCommand pos (colIndex - 1);
            addColAfterCommand;
            selectColCommand pos colIndex]
      else [selectColCommand pos colIndex;
            addColBeforeCommand;
            selectColCommand pos colIndex])
   /\ xLineHandleRef w' = xLineHandleRef w)
  /\
  (0 <= rowIndex ->
   let w' := exec (onAddRow (Some editorCtx) getPos) w in
   xLineHandleRef w' = Some {| dataset_show := Some "false" |}
   /\ visible (dataset_show (xLineHandleRef w' ?? xHandle)) = false).
Proof.
  intros Hview Hed Hx colIndex colCount rowIndex pos. split.
  - intros Hge w'. subst w'. unfold exec.
    rewrite (onAddCol_run getPos w view xHandle Hview Hed Hx Hge).
    cbn. fold colIndex colCount pos. split; [| reflexivity].
    rewrite (eqb_len_swap colCount colIndex).
    destruct (colIndex =? colCount); reflexivity.
  - intros Hge w'. subst w'. unfold exec.
    rewrite (onAddRow_run getPos w view xHandle Hview Hed Hx Hge).
    cbn. split; reflexivity.
Qed.

Lemma onAddCol_sequence_keeps_line_handle_witness :
  let w := example_world true (-1, -1) (1, 2) in
  (editorViewCtx w = Some {| editable := true |} /\
   xLineHandleRef w = Some {| dataset_show := Some "true" |} /\
   0 <= snd (lineHoverIndex w) /\ 0 <= fst (lineHoverIndex w)) /\
  (commandsCtx (exec (onAddCol (Some editorCtx) example_getPos) w) =
     [selectColCommand 11 1; addColAfterCommand; selectColCommand 11 2] /\
   xLineHandleRef (exec (onAddCol (Some editorCtx) example_getPos) w) =
     Some {| dataset_show := Some "true" |}) /\
  xLineHandleRef (exec (onAddRow (Some editorCtx) example_getPos) w) =
    Some {| dataset_show := Some "false" |}.
Proof.
  cbv zeta.
  pose proof (onAddCol_sequence_keeps_line_handle example_getPos
                (example_world true (-1, -1) (1, 2))
                {| editable := true |} {| dataset_show := Some "true" |}
                eq_refl eq_refl eq_refl) as [Hcol Hrow].
  split; [| split].
  - repeat split; cbn; lia.
  - apply Hcol. cbn; lia.
  - apply Hrow. cbn; lia.
Defined.

(** Whatever its guards decide, [onAddCol] writes nothing but calls of
    the command manager. *)
Lemma onAddCol_frame (ctx : option Ctx) (getPos : GetPos) (w : World) :
  exists calls,
    exec (onAddCol ctx getPos) w = set_commandsCtx (commandsCtx w ++ calls) w.
Proof.
  assert (Hid : forall w0, w0 = set_commandsCtx (commandsCtx w0 ++ []) w0).
  { intros [? ? ? ? ? ? ? ? ? ?]. unfold set_commandsCtx. cbn.
    rewrite app_nil_r. reflexivity. }
  unfold onAddCol. run_handler.
  destruct ctx as [c |]; [| exists []; apply Hid].
  destruct (xLineHandleRef w); [| exists []; apply Hid].
  destruct (snd (lineHoverIndex w) <? 0); [exists []; apply Hid |].
  destruct (editorViewCtx w) as [view |]; cbn; [| exists []; apply Hid].
  destruct (editable view); cbn; [| exists []; apply Hid].
  destruct (len (query_cols (contentWrapperRef w)) =? snd (lineHoverIndex w));
    cbn; unfold set_commandsCtx; cbn; rewrite <- !app_assoc;
    eexists; reflexivity.
Qed.

(** The button group of a handle after [toggle_button_group]. *)
Lemma toggled_visible (show : DataShow) :
  visible (toggled show) = negb (visible show).
Proof.
  destruct show as [s |]; cbn; [| reflexivity].
  destruct (String.eqb s "true"); reflexivity.
Qed.

Lemma toggle_button_group_visible (h : option HandleElement) :
  button_group_visible (toggle_button_group h) =
  option_map negb (button_group_visible h).
Proof.
  destruct h as [[[bg |]] |]; cbn; try reflexivity.
  rewrite toggled_visible. reflexivity.
Qed.

Lemma selectRow_run (c : Ctx) (getPos : GetPos) (w : World) :
  selectRow (Some c) getPos w =
    (Normal tt,
     let w1 :=
       set_commandsCtx
         (commandsCtx w ++
          [selectRowCommand (grid_pos getPos) (fst (hoverIndex w))]) w in
     if 0 <? fst (hoverIndex w)
     then set_rowHandleRef (toggle_button_group (rowHandleRef w)) w1
     else w1).
Proof.
  unfold selectRow. run_handler.
  destruct (0 <? fst (hoverIndex w)); reflexivity.
Qed.

Lemma selectCol_run (c : Ctx) (getPos : GetPos) (w : World) :
  selectCol (Some c) getPos w =
    (Normal tt,
     set_colHandleRef (toggle_button_group (colHandleRef w))
       (set_commandsCtx
          (commandsCtx w ++
           [selectColCommand (grid_pos getPos) (snd (hoverIndex w))]) w)).
Proof. reflexivity. Qed.

(** C5. A select-row gesture (with its context at hand) sends exactly
    one call to the command manager, select-row at the hovered row index,
    and the button group of the row handle has its visibility toggled if
    and only if [rowIndex > 0]: for row [0] the flag stays as it is. *)
Theorem selectRow_toggles_unless_header
    (c : Ctx) (getPos : GetPos) (w : World) :
  let rowIndex := fst (hoverIndex w) in
  let w' := exec (selectRow (Some c) getPos) w in
  commandsCtx w' =
    commandsCtx w ++ [selectRowCommand (grid_pos getPos) rowIndex]
  /\ rowHandleRef w' =
       (if 0 <? rowIndex then toggle_button_group (rowHandleRef w)
        else rowHandleRef w)
  /\ (forall shown,
        button_group_visible (rowHandleRef w) = Some shown ->
        (button_group_visible (rowHandleRef w') = Some (negb shown)
           <-> 0 < rowIndex)
        /\ (rowIndex = 0 ->
            button_group_visible (rowHandleRef w') = Some shown)).
Proof.
  intros rowIndex w'. subst w'. unfold exec. rewrite selectRow_run.
  fold rowIndex. cbn.
  destruct (Z.ltb_spec 0 rowIndex) as [Hpos | Hnpos]; cbn.
  - split; [reflexivity | split; [reflexivity |]].
    intros shown Hshown. split; [split |].
    + intros _. exact Hpos.
    + intros _. rewrite toggle_button_group_visible, Hshown. reflexivity.
    + lia.
  - split; [reflexivity | split; [reflexivity |]].
    intros shown Hshown. split; [split |].
    + rewrite Hshown. intros Heq. injection Heq as Heq.
      destruct shown; discriminate.
    + lia.
    + intros _. exact Hshown.
Qed.

Lemma selectRow_toggles_unless_header_witness :
  let w := example_world true (2, 0) (-1, -1) in
  let w' := exec (selectRow (Some editorCtx) example_getPos) w in
  button_group_visible (rowHandleRef w) = Some false /\
  commandsCtx w' = [selectRowCommand 11 2] /\
  (button_group_visible (rowHandleRef w') = Some true <-> 0 < 2).
Proof.
  cbv zeta.
  pose proof (selectRow_toggles_unless_header editorCtx example_getPos
                (example_world true (2, 0) (-1, -1))) as [Hcalls [_ Hflag]].
  split; [reflexivity | split].
  - exact Hcalls.
  - exact (proj1 (Hflag false eq_refl)).
Defined.

Example selectRow_header :
  let w := example_world true (0, 0) (-1, -1) in
  exec (selectRow (Some editorCtx) example_getPos) w =
  set_commandsCtx [selectRowCommand 11 0] w.
Proof. reflexivity. Qed.

(** C10. With a context at hand, select-row and select-col send their
    select command whatever the state of the editor and whatever the
    hover index: they read neither the view's [editable] flag nor compare
    the index with [0].  So the command is sent on a surface that is not
    editable, and with the index [-1] of "nothing hovered". *)
Theorem select_handlers_unguarded (c : Ctx) (getPos : GetPos) (w : World) :
  (commandsCtx (exec (selectRow (Some c) getPos) w) =
     commandsCtx w ++
     [selectRowCommand (grid_pos getPos) (fst (hoverIndex w))]
   /\ completion (selectRow (Some c) getPos) w = Normal tt)
  /\
  (commandsCtx (exec (selectCol (Some c) getPos) w) =
     commandsCtx w ++
     [selectColCommand (grid_pos getPos) (snd (hoverIndex w))]
   /\ completion (selectCol (Some c) getPos) w = Normal tt)
  /\
  (forall view,
     editorViewCtx w = Some view -> editable view = false ->
     hoverIndex w = (-1, -1) ->
     commandsCtx (exec (selectRow (Some c) getPos) w) =
       commandsCtx w ++ [selectRowCommand (grid_pos getPos) (-1)] /\
     commandsCtx (exec (selectCol (Some c) getPos) w) =
       commandsCtx w ++ [selectColCommand (grid_pos getPos) (-1)]).
Proof.
  unfold exec, completion. rewrite selectRow_run, selectCol_run. cbn.
  assert (Hrow :
    commandsCtx
      (if 0 <? fst (hoverIndex w)
       then set_rowHandleRef (toggle_button_group (rowHandleRef w))
              (set_commandsCtx
                 (commandsCtx w ++
                  [selectRowCommand (grid_pos getPos) (fst (hoverIndex w))]) w)
       else set_commandsCtx
              (commandsCtx w ++
               [selectRowCommand (grid_pos getPos) (fst (hoverIndex w))]) w) =
    commandsCtx w ++
    [selectRowCommand (grid_pos getPos) (fst (hoverIndex w))]).
  { destruct (0 <? fst (hoverIndex w)); reflexivity. }
  split; [split; [exact Hrow | reflexivity] |].
  split; [split; reflexivity |].
  intros view _ _ Hhover. rewrite Hrow, Hhover. split; reflexivity.
Qed.

Lemma select_handlers_unguarded_witness :
  let w := example_world false (-1, -1) (-1, -1) in
  (editorViewCtx w = Some {| editable := false |} /\
   hoverIndex w = (-1, -1)) /\
  commandsCtx (exec (selectRow (Some editorCtx) example_getPos) w) =
    [selectRowCommand 11 (-1)] /\
  commandsCtx (exec (selectCol (Some editorCtx) example_getPos) w) =
    [selectColCommand 11 (-1)].
Proof.
  cbv zeta. split; [split; reflexivity |].
  exact (proj2 (proj2 (select_handlers_unguarded editorCtx example_getPos
                         (example_world false (-1, -1) (-1, -1))))
           {| editable := false |} eq_refl eq_refl eq_refl).
Defined.

(** Without a context the select handlers do nothing. *)
Lemma select_handlers_without_ctx (getPos : GetPos) (w : World) :
  selectRow None getPos w = (Normal tt, w) /\
  selectCol None getPos w = (Normal tt, w).
Proof. split; reflexivity. Qed.

End OperationSpec.

(* ================================================================== *)
(** ** Properties of the block provider *)
(* ================================================================== *)

Module BlockProviderSpec.
Import BlockProvider.

Ltac unfold_provider :=
  unfold show, hide, settle, on_fulfilled, console_error, computePosition,
    update_element, get_editorViewCtx in *;
  unfold exec, completion, bind, gets, modify, ret in *.

Lemma nth_error_end {A} (l : list A) (a : A) :
  nth_error (l ++ [a]) (List.length l) = Some a.
Proof. induction l as [| b l IH]; [reflexivity | exact IH]. Qed.

Lemma remove_nth_end {A} (l : list A) (a : A) :
  remove_nth (List.length l) (l ++ [a]) = l.
Proof.
  induction l as [| b l IH]; [reflexivity |].
  cbn. rewrite IH. reflexivity.
Qed.

(** [show] with the view mounted: one more computation is in flight,
    nothing else changes. *)
Lemma show_run (options : BlockProviderOptions) (active : ActiveNode)
    (w : World) (view : EditorView) :
  editorViewCtx w = Some view ->
  show options active w =
    (Normal tt,
     set_computations
       (computations w ++
        [{| reference := virtual_element options (derive_context options view active);
            floating := content options;
            config := solver_config options (derive_context options view active) |}])
       w).
Proof. intros Hview. unfold_provider. rewrite Hview. reflexivity. Qed.

Lemma show_exec (options : BlockProviderOptions) (active : ActiveNode)
    (w : World) (view : EditorView) :
  editorViewCtx w = Some view ->
  exec (show options active) w =
    set_computations
      (computations w ++
       [{| reference := virtual_element options (derive_context options view active);
           floating := content options;
           config := solver_config options (derive_context options view active) |}])
      w.
Proof.
  intros Hview. unfold exec.
  rewrite (show_run options active w view Hview). reflexivity.
Qed.

(** Without the view [show] throws before it reaches the solver. *)
Lemma show_unmounted (options : BlockProviderOptions) (active : ActiveNode)
    (w : World) :
  editorViewCtx w = None ->
  exec (show options active) w = w /\
  completion (show options active) w = Throw "Context not found: editorView".
Proof. intros Hview. unfold_provider. rewrite Hview. split; reflexivity. Qed.

(** C4, as the code has it.  A call [show(active)] that reaches the
    solver hands it one configuration.  When the provider's
    [floatingUIOptions] carry no [middleware] key, its chain is the flip
    rule first, then the offset rule exactly when [getOffset] was
    supplied, then the caller's extra rules.  When [floatingUIOptions] do
    carry a [middleware] key, the value of that key is what the solver
    gets, in place of the whole chain. *)
Theorem show_middleware_chain (options : BlockProviderOptions)
    (active : ActiveNode) (w : World) (view : EditorView) :
  editorViewCtx w = Some view ->
  let deriveContext := derive_context options view active in
  let extra := options_middleware options ?? [] in
  exists c,
    computations (exec (show options active) w) = computations w ++ [c]
    /\ middleware (config c) =
         match option_map partial_middleware (floatingUIOptions options) with
         | Some (present chain) => chain
         | _ =>
             Some (flip ::
                   match getOffset options with
                   | Some f => offset (f deriveContext) :: extra
                   | None => extra
                   end)
         end.
Proof.
  intros Hview deriveContext extra.
  eexists. unfold exec. rewrite (show_run options active w view Hview).
  cbn [snd computations set_computations config].
  split; [reflexivity |].
  unfold solver_config, internal_middleware. cbn [middleware].
  fold deriveContext extra.
  destruct (floatingUIOptions options) as [fo |]; cbn.
  - destruct (partial_middleware fo); cbn; [| reflexivity].
    destruct (getOffset options); reflexivity.
  - destruct (getOffset options); reflexivity.
Qed.

(** With solver options that hold a [middleware] of their own, the chain
    the solver receives is that one: neither the flip rule, nor the
    offset rule, nor the extra rules are in it. *)
Lemma show_middleware_overridden :
  let w := constructor example_element (Some example_view) true None in
  let w' := exec (show overriding_options example_active) w in
  map (fun c => middleware (config c)) (computations w') =
    [Some [custom "arrow"]]
  /\ map flip_first (computations w') = [false]
  /\ getOffset overriding_options <> None.
Proof. cbv zeta. repeat split. discriminate. Qed.

Lemma show_middleware_chain_witness :
  let w := constructor example_element (Some example_view) true None in
  editorViewCtx w = Some example_view /\
  exists c,
    computations (exec (show plain_options example_active) w) = [c] /\
    middleware (config c) = Some [flip].
Proof.
  cbv zeta. split; [reflexivity |].
  exact (show_middleware_chain plain_options example_active
           (constructor example_element (Some example_view) true None)
           example_view eq_refl).
Defined.

(** A settlement of a computation that is in flight. *)
Lemma settle_rejected_run (w : World) (i : nat) (c : Computation)
    (reason : Error) :
  nth_error (computations w) i = Some c ->
  settle i (rejected reason) w =
    (Normal tt,
     set_console (console w ++ [reason])
       (set_computations (remove_nth i (computations w)) w)).
Proof. intros Hc. unfold_provider. rewrite Hc. reflexivity. Qed.

Lemma settle_fulfilled_run (w : World) (i : nat) (c : Computation) (x y : Z) :
  nth_error (computations w) i = Some c ->
  settle i (fulfilled x y) w =
    (Normal tt,
     set_element
       (with_dataset_show (Some "true")
          (with_style (px x) (px y) (element w)))
       (set_computations (remove_nth i (computations w)) w)).
Proof. intros Hc. unfold_provider. rewrite Hc. reflexivity. Qed.

(** C6.  When the computation a call [show(active)] started is rejected,
    the reason goes to [console.error]; the element is left as it was
    (its [data-show] flag and its [left] and [top] styles keep their
    values); the rejected computation is gone and no other one is
    started.  The same holds for any rejected computation, whatever
    happened since it was started. *)
Theorem rejected_computation_keeps_element (options : BlockProviderOptions)
    (active : ActiveNode) (w : World) (view : EditorView) (reason : Error) :
  editorViewCtx w = Some view ->
  (let started := exec (show options active) w in
   let failed :=
     exec (settle (List.length (computations w)) (rejected reason)) started in
   console failed = console w ++ [reason]
   /\ element failed = element w
   /\ dataset_show (element failed) = dataset_show (element w)
   /\ style_left (element failed) = style_left (element w)
   /\ style_top (element failed) = style_top (element w)
   /\ computations failed = computations w
   /\ completion (settle (List.length (computations w)) (rejected reason))
        started = Normal tt)
  /\
  (forall (w0 : World) (i : nat) (c : Computation),
     nth_error (computations w0) i = Some c ->
     let failed := exec (settle i (rejected reason)) w0 in
     console failed = console w0 ++ [reason]
     /\ element failed = element w0
     /\ computations failed = remove_nth i (computations w0)).
Proof.
  intros Hview. split.
  - cbv zeta. rewrite (show_exec options active w view Hview).
    unfold exec, completion.
    erewrite settle_rejected_run by (cbn; apply nth_error_end).
    cbn. rewrite remove_nth_end. repeat split.
  - intros w0 i c Hc. cbv zeta. unfold exec.
    rewrite (settle_rejected_run w0 i c reason Hc). cbn. repeat split.
Qed.

Lemma rejected_computation_keeps_element_witness :
  let w := constructor example_element (Some example_view) true None in
  let started := exec (show plain_options example_active) w in
  let failed := exec (settle 0 (rejected "no layout")) started in
  editorViewCtx w = Some example_view /\
  console failed = ["no layout"] /\
  dataset_show (element failed) = Some "false" /\
  computations failed = [].
Proof.
  cbv zeta. split; [reflexivity |].
  pose proof (proj1 (rejected_computation_keeps_element plain_options
                       example_active
                       (constructor example_element (Some example_view) true None)
                       example_view "no layout" eq_refl))
    as [Hconsole [_ [Hshow [_ [_ [Hcomp _]]]]]].
  split; [exact Hconsole | split; [exact Hshow | exact Hcomp]].
Defined.

(** Single steps of the provider's history. *)
Lemma step_show (options : BlockProviderOptions) (active : ActiveNode)
    (w : World) (view : EditorView) :
  editorViewCtx w = Some view ->
  step options (ev_show active) w =
    set_computations
      (computations w ++
       [{| reference := virtual_element options (derive_context options view active);
           floating := content options;
           config := solver_config options (derive_context options view active) |}])
      w.
Proof.
  intros Hview. exact (show_exec options active w view Hview).
Qed.

Lemma step_hide (options : BlockProviderOptions) (w : World) :
  step options ev_hide w =
    set_element (with_dataset_show (Some "false") (element w)) w.
Proof. reflexivity. Qed.

Lemma step_settle_fulfilled (options : BlockProviderOptions) (w : World)
    (i : nat) (c : Computation) (x y : Z) :
  nth_error (computations w) i = Some c ->
  step options (ev_settle i (fulfilled x y)) w =
    set_element
      (with_dataset_show (Some "true")
         (with_style (px x) (px y) (element w)))
      (set_computations (remove_nth i (computations w)) w).
Proof.
  intros Hc. unfold step, handle, exec.
  rewrite (settle_fulfilled_run w i c x y Hc). reflexivity.
Qed.

(** C7.  [hide()] does not cancel the computation an earlier
    [show(active)] started: after [show(active); hide()] the element is
    hidden and the computation is still in flight, and when it is then
    fulfilled its callback sets the flag to ['true'] (and moves the
    element), so the element ends up displayed. *)
Theorem late_fulfilment_shows_after_hide (options : BlockProviderOptions)
    (active : ActiveNode) (w : World) (view : EditorView) (x y : Z) :
  editorViewCtx w = Some view ->
  let i := List.length (computations w) in
  let hidden := run options [ev_show active; ev_hide] w in
  let final :=
    run options [ev_show active; ev_hide; ev_settle i (fulfilled x y)] w in
  (visible (dataset_show (element hidden)) = false
   /\ nth_error (computations hidden) i <> None)
  /\ dataset_show (element final) = Some "true"
  /\ visible (dataset_show (element final)) = true
  /\ style_left (element final) = Some (px x)
  /\ style_top (element final) = Some (px y).
Proof.
  intros Hview i hidden final. subst hidden final i.
  unfold run. cbn [fold_left].
  rewrite (step_show options active w view Hview).
  rewrite step_hide.
  erewrite step_settle_fulfilled by (cbn; apply nth_error_end).
  cbn. rewrite nth_error_end. repeat split. discriminate.
Qed.

Lemma late_fulfilment_shows_after_hide_witness :
  let w := constructor example_element (Some example_view) true None in
  let final :=
    run plain_options
      [ev_show example_active; ev_hide; ev_settle 0 (fulfilled 12 (-3))] w in
  editorViewCtx w = Some example_view /\
  dataset_show (element final) = Some "true" /\
  style_left (element final) = Some "12px" /\
  style_top (element final) = Some "-3px".
Proof.
  cbv zeta. split; [reflexivity |].
  pose proof (late_fulfilment_shows_after_hide plain_options example_active
                (constructor example_element (Some example_view) true None)
                example_view 12 (-3) eq_refl)
    as [_ [Hshow [_ [Hleft Htop]]]].
  split; [exact Hshow | split; [exact Hleft | exact Htop]].
Defined.

Section Lifecycle.
Variable options : BlockProviderOptions.

(** The three ways [#init] can go. *)
Lemma init_unmounted (w : World) :
  editorViewCtx w = None ->
  init options w = (Throw "Context not found: editorView", w).
Proof.
  intros Hview. unfold init, get_editorViewCtx, bind. rewrite Hview.
  reflexivity.
Qed.

Lemma init_unregistered (w : World) (view : EditorView) :
  editorViewCtx w = Some view ->
  blockServiceInstance w = false ->
  init options w =
    (Throw "Context not found: blockService",
     set_element
       (with_parentNode
          (Some match root options with
                | Some r => r
                | None => dom_parentElement view ?? document_body
                end)
          (element w)) w).
Proof.
  intros Hview Hreg.
  unfold init, get_editorViewCtx, get_blockServiceInstance, update_element,
    bind, modify.
  rewrite Hview. cbn. rewrite Hreg. reflexivity.
Qed.

Lemma init_run (w : World) (view : EditorView) :
  editorViewCtx w = Some view ->
  blockServiceInstance w = true ->
  init options w =
    (Normal tt,
     set_element
       (with_draggable true
          (with_eventListeners true
             (with_parentNode
                (Some match root options with
                      | Some r => r
                      | None => dom_parentElement view ?? document_body
                      end)
                (element w))))
       (set_service (Some blockService)
          (set_serviceState {| notify := Some thisProvider |} w))).
Proof.
  intros Hview Hreg.
  unfold init, get_editorViewCtx, get_blockServiceInstance, service_bind,
    service_addEvent, update_element, bind, modify.
  rewrite Hview. cbn. rewrite Hreg. reflexivity.
Qed.

(** [#init] returns exactly when the view is mounted and the service
    registered. *)
Lemma init_returns_iff (w : World) :
  completion (init options) w = Normal tt <->
  (editorViewCtx w <> None /\ blockServiceInstance w = true).
Proof.
  unfold completion.
  destruct (editorViewCtx w) as [view |] eqn:Hview.
  - destruct (blockServiceInstance w) eqn:Hreg.
    + rewrite (init_run w view Hview Hreg). cbn.
      split; [intros _; split; [discriminate | reflexivity] | reflexivity].
    + rewrite (init_unregistered w view Hview Hreg). cbn.
      split; [discriminate | intros [_ H]; discriminate H].
  - rewrite (init_unmounted w Hview). cbn.
    split; [discriminate | intros [H _]; contradiction H; reflexivity].
Qed.

(** [#init] leaves the flag and the frame queue alone. *)
Lemma init_keeps (w : World) :
  initialized (exec (init options) w) = initialized w /\
  frames (exec (init options) w) = frames w.
Proof.
  unfold exec.
  destruct (editorViewCtx w) as [view |] eqn:Hview.
  - destruct (blockServiceInstance w) eqn:Hreg.
    + rewrite (init_run w view Hview Hreg). split; reflexivity.
    + rewrite (init_unregistered w view Hview Hreg). split; reflexivity.
  - rewrite (init_unmounted w Hview). split; reflexivity.
Qed.

(** The frame callback of [update]. *)
Lemma update_callback_initialized (w : World) :
  initialized w = true -> update_callback options w = (Normal tt, w).
Proof.
  intros Hinit. unfold update_callback, bind, gets. rewrite Hinit.
  reflexivity.
Qed.

Lemma update_callback_uninitialized (w : World) :
  initialized w = false ->
  update_callback options w =
    match init options w with
    | (Normal _, w') => (Normal tt, set_initialized true w')
    | (Throw _, w') => (Normal tt, w')
    end.
Proof.
  intros Hinit. unfold update_callback, bind, gets, try_catch, modify, ret.
  rewrite Hinit. cbn.
  destruct (init options w) as [[[] | reason] w']; reflexivity.
Qed.

Lemma update_callback_returns (w : World) :
  completion (update_callback options) w = Normal tt.
Proof.
  unfold completion.
  destruct (initialized w) eqn:Hinit.
  - rewrite (update_callback_initialized w Hinit). reflexivity.
  - rewrite (update_callback_uninitialized w Hinit).
    destruct (init options w) as [[[] | reason] w']; reflexivity.
Qed.

(** A pass on an empty frame queue is the callback itself. *)
Lemma update_pass_callback (w : World) :
  frames w = [] -> update_pass options w = update_callback options w.
Proof.
  intros Hframes. unfold update_pass, update, run_frame, bind, modify, gets.
  cbn. rewrite Hframes. cbn.
  replace (set_frames [] (set_frames [updateCallback] w)) with w;
    [destruct (update_callback options w) as [[[] | reason] w']; reflexivity |].
  destruct w; cbn in *; subst; reflexivity.
Qed.

(** How each event treats the fields the invariants speak of. *)
Lemma show_keeps (active : ActiveNode) (w : World) :
  let w' := exec (show options active) w in
  initialized w' = initialized w /\ service w' = service w /\
  serviceState w' = serviceState w /\ element w' = element w.
Proof.
  cbv zeta. destruct (editorViewCtx w) as [view |] eqn:Hview.
  - rewrite (show_exec options active w view Hview). repeat split.
  - rewrite (proj1 (show_unmounted options active w Hview)). repeat split.
Qed.

Lemma settle_keeps (i : nat) (s : Settlement) (w : World) :
  let w' := exec (settle i s) w in
  initialized w' = initialized w /\ service w' = service w /\
  serviceState w' = serviceState w.
Proof.
  cbv zeta. unfold_provider. cbn.
  destruct (nth_error (computations w) i); [| repeat split].
  destruct s; repeat split.
Qed.

Lemma service_notify_keeps (message : Message) (w : World) :
  let w' := exec (service_notify options message) w in
  initialized w' = initialized w /\ service w' = service w /\
  serviceState w' = serviceState w.
Proof.
  cbv zeta. unfold service_notify, exec, bind, gets. cbn.
  destruct (notify (serviceState w)) as [[| n] |]; try (repeat split; fail).
  destruct message as [| active]; unfold on_message.
  - repeat split.
  - unfold bind, modify.
    pose proof (show_keeps active w) as Hshow. cbv zeta in Hshow.
    unfold exec in Hshow.
    destruct (show options active w) as [[[] | reason] w']; cbn in *;
      exact (conj (proj1 Hshow)
               (conj (proj1 (proj2 Hshow)) (proj1 (proj2 (proj2 Hshow))))).
Qed.

Lemma destroy_run (w : World) :
  destroy w =
    (Normal tt,
     match service w with
     | Some _ =>
         set_element
           (with_parentNode None (with_eventListeners false (element w)))
           (set_serviceState {| notify := None |} w)
     | None => set_element (with_parentNode None (element w)) w
     end).
Proof.
  unfold destroy, service_unBind, service_removeEvent, update_element,
    bind, gets, modify, ret.
  cbn. destruct (service w) eqn:Hs; cbn; rewrite ?Hs; reflexivity.
Qed.

Lemma run_frame_run (w : World) :
  run_frame options w =
    match frames w with
    | [] => (Normal tt, w)
    | updateCallback :: rest => update_callback options (set_frames rest w)
    end.
Proof.
  unfold run_frame, bind, gets, modify. cbn.
  destruct (frames w) as [| [] rest]; reflexivity.
Qed.

Lemma update_callback_exec (w : World) :
  exec (update_callback options) w =
    if initialized w then w
    else
      match editorViewCtx w with
      | Some view =>
          if blockServiceInstance w
          then set_initialized true (exec (init options) w)
          else exec (init options) w
      | None => w
      end.
Proof.
  unfold exec. destruct (initialized w) eqn:Hinit.
  - rewrite (update_callback_initialized w Hinit). reflexivity.
  - rewrite (update_callback_uninitialized w Hinit).
    destruct (editorViewCtx w) as [view |] eqn:Hview.
    + destruct (blockServiceInstance w) eqn:Hreg.
      * rewrite (init_run w view Hview Hreg). reflexivity.
      * rewrite (init_unregistered w view Hview Hreg). reflexivity.
    + rewrite (init_unmounted w Hview). reflexivity.
Qed.

(** Nothing turns [#initialized] off again. *)
Lemma step_initialized (ev : Event) (w : World) :
  initialized w = true -> initialized (step options ev w) = true.
Proof.
  intros Hinit. unfold step.
  destruct ev as [| | active | | | i s | message | view | | n |]; cbn [handle].
  - exact Hinit.
  - unfold exec. rewrite destroy_run. cbn. destruct (service w); exact Hinit.
  - rewrite (proj1 (show_keeps active w)). exact Hinit.
  - exact Hinit.
  - unfold exec. rewrite run_frame_run.
    destruct (frames w) as [| [] rest]; [exact Hinit |].
    rewrite update_callback_initialized by exact Hinit. exact Hinit.
  - rewrite (proj1 (settle_keeps i s w)). exact Hinit.
  - rewrite (proj1 (service_notify_keeps message w)). exact Hinit.
  - exact Hinit.
  - exact Hinit.
  - exact Hinit.
  - exact Hinit.
Qed.

Lemma run_initialized (evs : list Event) (w : World) :
  initialized w = true -> initialized (run options evs w) = true.
Proof.
  revert w. induction evs as [| ev evs IH]; intros w Hinit; [exact Hinit |].
  cbn. apply IH, step_initialized, Hinit.
Qed.

Lemma successful_inits_initialized (evs : list Event) (w : World) :
  initialized w = true -> successful_inits options evs w = 0%nat.
Proof.
  revert w. induction evs as [| ev evs IH]; intros w Hinit; [reflexivity |].
  cbn. unfold initializes. rewrite Hinit. cbn.
  apply IH, step_initialized, Hinit.
Qed.

Lemma successful_inits_le_1 (evs : list Event) (w : World) :
  (successful_inits options evs w <= 1)%nat.
Proof.
  revert w. induction evs as [| ev evs IH]; intros w; cbn; [lia |].
  destruct (initializes options ev w) eqn:Hev.
  - unfold initializes in Hev. apply andb_true_iff in Hev as [_ Hnow].
    rewrite (successful_inits_initialized evs _ Hnow). lia.
  - specialize (IH (step options ev w)). lia.
Qed.

(** The invariant is kept by the frame callback *)
Lemma update_callback_consistent (w : World) :
  consistent w -> consistent (exec (update_callback options) w).
Proof.
  intros Hw. rewrite update_callback_exec.
  case_eq (initialized w); intros Hinit; [exact Hw |].
  case_eq (editorViewCtx w); [intros view Hview | intros _; exact Hw].
  case_eq (blockServiceInstance w); intros Hreg; unfold exec.
  - rewrite (init_run w view Hview Hreg).
    split; cbn; [reflexivity | discriminate].
  - rewrite (init_unregistered w view Hview Hreg). exact Hw.
Qed.

(** and by every event. *)
Lemma step_consistent (ev : Event) (w : World) :
  consistent w -> consistent (step options ev w).
Proof.
  intros [Hservice Hbound]. unfold step.
  destruct ev as [| | active | | | i s | message | view | | n |]; cbn [handle].
  - split; assumption.
  - unfold exec. rewrite destroy_run. cbn.
    destruct (service w) eqn:Hs; cbn; unfold consistent; cbn; rewrite ?Hs.
    + split; [exact Hservice | discriminate].
    + split; [intros H; contradiction H; reflexivity | exact Hbound].
  - destruct (show_keeps active w) as [Hi [Hs [Hst _]]].
    unfold consistent. rewrite Hi, Hs, Hst. split; assumption.
  - split; assumption.
  - unfold exec. rewrite run_frame_run.
    destruct (frames w) as [| [] rest]; [split; assumption |].
    apply update_callback_consistent. split; assumption.
  - destruct (settle_keeps i s w) as [Hi [Hs Hst]].
    unfold consistent. rewrite Hi, Hs, Hst. split; assumption.
  - destruct (service_notify_keeps message w) as [Hi [Hs Hst]].
    unfold consistent. rewrite Hi, Hs, Hst. split; assumption.
  - split; assumption.
  - split; assumption.
  - split; [exact Hservice | discriminate].
  - split; [exact Hservice | discriminate].
Qed.

Lemma constructor_consistent (contentElement : HTMLElement)
    (view : option EditorView) (registered : bool) (bound : option nat) :
  consistent (constructor contentElement view registered bound).
Proof.
  split; cbn.
  - intros H; contradiction H; reflexivity.
  - destruct bound; discriminate.
Qed.

Lemma run_consistent (evs : list Event) (w : World) :
  consistent w -> consistent (run options evs w).
Proof.
  revert w. induction evs as [| ev evs IH]; intros w Hw; [exact Hw |].
  cbn. apply IH, step_consistent, Hw.
Qed.

End Lifecycle.

(** C8.  Initialization succeeds at most once for a provider.  A pass
    of [update()] on a provider that is not initialized runs [#init]:
    when [#init] throws, the pass swallows the exception and leaves the
    provider not initialized, so the next pass runs [#init] again; when
    [#init] returns, the pass marks the provider initialized.  A pass on
    an initialized provider changes nothing: it neither attaches the
    element nor binds the service again.  Nothing ever marks the provider
    uninitialized again, so in any history at most one event
    initializes. *)
Theorem initialization_succeeds_at_most_once (options : BlockProviderOptions) :
  (forall w reason,
     initialized w = false -> frames w = [] ->
     completion (init options) w = Throw reason ->
     update_pass options w = (Normal tt, exec (init options) w)
     /\ initialized (exec (update_pass options) w) = false
     /\ frames (exec (update_pass options) w) = [])
  /\
  (forall w,
     initialized w = false -> frames w = [] ->
     completion (init options) w = Normal tt ->
     update_pass options w =
       (Normal tt, set_initialized true (exec (init options) w)))
  /\
  (forall w,
     initialized w = true ->
     update_callback options w = (Normal tt, w)
     /\ (frames w = [] -> update_pass options w = (Normal tt, w)))
  /\
  (forall evs w,
     initialized w = true -> initialized (run options evs w) = true)
  /\
  (forall evs w, (successful_inits options evs w <= 1)%nat).
Proof.
  split; [| split; [| split; [| split]]].
  - intros w reason Hinit Hframes Hthrow.
    assert (Hpass : update_pass options w = (Normal tt, exec (init options) w)).
    { rewrite (update_pass_callback options w Hframes).
      rewrite (update_callback_uninitialized options w Hinit).
      unfold completion, exec in *.
      destruct (init options w) as [[[] | r] w']; cbn in *;
        [discriminate | reflexivity]. }
    assert (Hexec : exec (update_pass options) w = exec (init options) w).
    { unfold exec at 1. rewrite Hpass. reflexivity. }
    destruct (init_keeps options w) as [Hi Hf].
    rewrite Hexec, Hi, Hf. auto.
  - intros w Hinit Hframes Hret.
    rewrite (update_pass_callback options w Hframes).
    rewrite (update_callback_uninitialized options w Hinit).
    unfold completion, exec in *.
    destruct (init options w) as [[[] | r] w']; cbn in *;
      [reflexivity | discriminate].
  - intros w Hinit. split.
    + apply update_callback_initialized, Hinit.
    + intros Hframes. rewrite (update_pass_callback options w Hframes).
      apply update_callback_initialized, Hinit.
  - intros evs w. apply run_initialized.
  - intros evs w. apply successful_inits_le_1.
Qed.

(** The view is mounted between two passes: the first pass fails and
    changes nothing, the second one initializes, a third one does
    nothing. *)
Example update_retries_until_mounted :
  let w0 := constructor example_element None true None in
  let w1 := run plain_options [ev_update; ev_frame] w0 in
  let w2 := run plain_options [ev_view (Some example_view);
                               ev_update; ev_frame] w1 in
  let w3 := run plain_options [ev_update; ev_frame] w2 in
  w1 = w0
  /\ initialized w2 = true
  /\ element w2 =
       {| dataset_show := Some "false";
          style_left := None;
          style_top := None;
          parentNode := Some 2%nat;
          draggable := true;
          eventListeners := true |}
  /\ notify (serviceState w2) = Some thisProvider
  /\ w3 = w2.
Proof. cbv zeta. repeat split. Qed.

Lemma initialization_succeeds_at_most_once_witness :
  let w0 := constructor example_element None true None in
  let w2 := run plain_options [ev_update; ev_frame;
                               ev_view (Some example_view);
                               ev_update; ev_frame] w0 in
  (initialized w0 = false /\ frames w0 = [] /\
   completion (init plain_options) w0 = Throw "Context not found: editorView")
  /\ update_pass plain_options w0 = (Normal tt, w0)
  /\ (initialized w2 = true /\ frames w2 = [])
  /\ update_pass plain_options w2 = (Normal tt, w2).
Proof.
  cbv zeta.
  pose proof (initialization_succeeds_at_most_once plain_options)
    as [Hfail [_ [Hdone _]]].
  split; [repeat split |].
  split; [| split; [split; reflexivity |]].
  - exact (proj1 (Hfail (constructor example_element None true None)
                    "Context not found: editorView"
                    eq_refl eq_refl eq_refl)).
  - exact (proj2 (Hdone (run plain_options
                           [ev_update; ev_frame; ev_view (Some example_view);
                            ev_update; ev_frame]
                           (constructor example_element None true None))
                    eq_refl) eq_refl).
Defined.

(** C9.  [destroy()] never throws, and calling it a second time changes
    nothing more.  After it, the service is not bound to this provider,
    whatever the provider went through before.  On a provider that no
    [update()] pass has initialized, [#service] was never set and the
    service was never bound to this provider: [destroy()] then only
    detaches the element and leaves the service as it is. *)
Theorem destroy_idempotent_and_safe (options : BlockProviderOptions) :
  (forall w, completion destroy w = Normal tt)
  /\
  (forall w,
     destroy (exec destroy w) = (Normal tt, exec destroy w)
     /\ exec (destroy ;; destroy) w = exec destroy w)
  /\
  (forall contentElement view registered bound evs,
     let w := run options evs
                (constructor contentElement view registered bound) in
     notify (serviceState (exec destroy w)) <> Some thisProvider
     /\ (initialized w = false ->
         service w = None
         /\ notify (serviceState w) <> Some thisProvider
         /\ destroy w =
              (Normal tt, set_element (with_parentNode None (element w)) w))).
Proof.
  split; [| split].
  - intros w. unfold completion. rewrite destroy_run. reflexivity.
  - intros w.
    assert (Htwice : destroy (exec destroy w) = (Normal tt, exec destroy w)).
    { unfold exec. rewrite (destroy_run w). cbn [snd].
      rewrite destroy_run.
      destruct (service w) eqn:Hs; cbn; rewrite ?Hs; reflexivity. }
    split; [exact Htwice |].
    unfold exec at 1. unfold bind.
    pose proof (destroy_run w) as Hone.
    destruct (destroy w) as [[[] | reason] w'] eqn:Hd;
      [| discriminate Hone].
    unfold exec in Htwice |- *. rewrite Hd in Htwice |- *. cbn [snd] in *.
    rewrite Htwice. reflexivity.
  - intros contentElement view registered bound evs w.
    assert (Hw : consistent w).
    { apply run_consistent, constructor_consistent. }
    destruct Hw as [Hservice Hbound].
    unfold exec. rewrite destroy_run. split.
    + destruct (service w) eqn:Hs; cbn; [discriminate |].
      intros Hn. apply (Hbound Hn). reflexivity.
    + intros Hinit.
      assert (Hs : service w = None).
      { destruct (service w) eqn:Hs; [| reflexivity].
        rewrite Hservice in Hinit; [discriminate Hinit | discriminate]. }
      rewrite Hs. repeat split.
      intros Hn. apply (Hbound Hn). exact Hs.
Qed.

Lemma destroy_idempotent_and_safe_witness :
  let w := run plain_options [ev_update; ev_frame]
             (constructor example_element None true (Some 4%nat)) in
  initialized w = false
  /\ completion destroy w = Normal tt
  /\ service w = None
  /\ serviceState (exec destroy w) = {| notify := Some (otherSubscriber 4) |}
  /\ exec (destroy ;; destroy) w = exec destroy w.
Proof.
  cbv zeta.
  pose proof (destroy_idempotent_and_safe plain_options)
    as [Hsafe [Htwice Hfresh]].
  split; [reflexivity |].
  split; [apply Hsafe |].
  split; [| split; [reflexivity | apply Htwice]].
  exact (proj1 (proj2 (Hfresh example_element None true (Some 4%nat)
                         [ev_update; ev_frame]) eq_refl)).
Defined.

(** A frame callback that an earlier [update()] queued still runs after
    [destroy()], and initializes then: the provider is bound from that
    frame on, until [destroy()] is called again. *)
Example frame_after_destroy_initializes :
  let w := run plain_options [ev_update; ev_destroy]
             (constructor example_element (Some example_view) true None) in
  notify (serviceState w) = None
  /\ notify (serviceState (run plain_options [ev_frame] w)) = Some thisProvider
  /\ notify (serviceState (run plain_options [ev_frame; ev_destroy] w)) = None.
Proof. cbv zeta. repeat split. Qed.

(** After an initialized life, [destroy()] unbinds, removes the
    listeners and detaches; a second call finds nothing left to do. *)
Example destroy_after_update :
  let w := run plain_options [ev_update; ev_frame]
             (constructor example_element (Some example_view) true None) in
  notify (serviceState w) = Some thisProvider
  /\ notify (serviceState (exec destroy w)) = None
  /\ element (exec destroy w) =
       {| dataset_show := Some "false";
          style_left := None;
          style_top := None;
          parentNode := None;
          draggable := true;
          eventListeners := false |}
  /\ exec destroy (exec destroy w) = exec destroy w.
Proof. cbv zeta. repeat split. Qed.

End BlockProviderSpec.

(* ================================================================== *)
(** ** Further properties of the grid gesture translator *)
(* ================================================================== *)

Module OperationExtra.
Import Operation.
Import OperationSpec.

Lemma onAddRow_guards (ctx : option Ctx) (getPos : GetPos) (w : World) :
  ctx = None \/ xLineHandleRef w = None \/ fst (lineHoverIndex w) < 0 ->
  onAddRow ctx getPos w = (Normal tt, w).
Proof.
  intros Hguard. unfold onAddRow. run_handler.
  destruct ctx as [c |]; [| reflexivity].
  destruct (xLineHandleRef w) as [xHandle |]; [| reflexivity].
  destruct (Z.ltb_spec (fst (lineHoverIndex w)) 0) as [_ | Hge];
    [reflexivity |].
  destruct Hguard as [H | [H | H]]; [discriminate H | discriminate H | lia].
Qed.

(** X1.  [onAddRow] gives up before it looks at the editor when it has
    no context, when the line handle is not mounted, or when the hovered
    row index is negative: it returns with the world as it was, so no
    command is sent and the handle's flag is not written. *)
Theorem onAddRow_rejects (ctx : option Ctx) (getPos : GetPos) (w : World) :
  ctx = None \/ xLineHandleRef w = None \/ fst (lineHoverIndex w) < 0 ->
  onAddRow ctx getPos w = (Normal tt, w).
Proof.
  intros Hguard. unfold onAddRow. run_handler.
  destruct ctx as [c |]; [| reflexivity].
  destruct (xLineHandleRef w) as [xHandle |]; [| reflexivity].
  destruct (Z.ltb_spec (fst (lineHoverIndex w)) 0) as [_ | Hge];
    [reflexivity |].
  destruct Hguard as [H | [H | H]]; [discriminate H | discriminate H | lia].
Qed.

Lemma onAddRow_rejects_witness :
  let w := example_world true (-1, -1) (-1, 2) in
  fst (lineHoverIndex w) < 0 /\
  onAddRow (Some editorCtx) example_getPos w = (Normal tt, w).
Proof.
  cbv zeta. split; [cbn; lia |].
  apply (onAddRow_rejects (Some editorCtx) example_getPos
           (example_world true (-1, -1) (-1, 2))).
  right. right. cbn. lia.
Defined.

Lemma onAddCol_guards (ctx : option Ctx) (getPos : GetPos) (w : World) :
  ctx = None \/ xLineHandleRef w = None \/ snd (lineHoverIndex w) < 0 ->
  onAddCol ctx getPos w = (Normal tt, w).
Proof.
  intros Hguard. unfold onAddCol. run_handler.
  destruct ctx as [c |]; [| reflexivity].
  destruct (xLineHandleRef w) as [xHandle |]; [| reflexivity].
  destruct (Z.ltb_spec (snd (lineHoverIndex w)) 0) as [_ | Hge];
    [reflexivity |].
  destruct Hguard as [H | [H | H]]; [discriminate H | discriminate H | lia].
Qed.

(** X2.  [onAddCol] has the same three guards; the handle it asks for is
    the one of [xLineHandleRef], the handle [onAddRow] uses.  Without a
    context, without that handle, or with a negative column index it
    returns with the world as it was. *)
Theorem onAddCol_rejects (ctx : option Ctx) (getPos : GetPos) (w : World) :
  ctx = None \/ xLineHandleRef w = None \/ snd (lineHoverIndex w) < 0 ->
  onAddCol ctx getPos w = (Normal tt, w).
Proof.
  intros Hguard. unfold onAddCol. run_handler.
  destruct ctx as [c |]; [| reflexivity].
  destruct (xLineHandleRef w) as [xHandle |]; [| reflexivity].
  destruct (Z.ltb_spec (snd (lineHoverIndex w)) 0) as [_ | Hge];
    [reflexivity |].
  destruct Hguard as [H | [H | H]]; [discriminate H | discriminate H | lia].
Qed.

Lemma onAddCol_rejects_witness :
  let w := set_xLineHandleRef None (example_world true (-1, -1) (-1, 1)) in
  xLineHandleRef w = None /\
  onAddCol (Some editorCtx) example_getPos w = (Normal tt, w).
Proof.
  cbv zeta. split; [reflexivity |].
  apply (onAddCol_rejects (Some editorCtx) example_getPos
           (set_xLineHandleRef None (example_world true (-1, -1) (-1, 1)))).
  right. left. reflexivity.
Defined.

(** X3.  Neither insert handler compares the hover index with the size
    of the grid from above: an index beyond the last line takes the
    insert-before branch, with select commands at that index. *)
Theorem insert_past_the_end
    (getPos : GetPos) (w : World) (view : EditorView) (xHandle : HTMLElement) :
  editorViewCtx w = Some view ->
  editable view = true ->
  xLineHandleRef w = Some xHandle ->
  let rowIndex := fst (lineHoverIndex w) in
  let colIndex := snd (lineHoverIndex w) in
  let pos := grid_pos getPos in
  (len (query_rows (contentWrapperRef w)) < rowIndex ->
   commandsCtx (exec (onAddRow (Some editorCtx) getPos) w) =
     commandsCtx w ++
     [selectRowCommand pos rowIndex; addRowBeforeCommand;
      selectRowCommand pos rowIndex])
  /\
  (len (query_cols (contentWrapperRef w)) < colIndex ->
   commandsCtx (exec (onAddCol (Some editorCtx) getPos) w) =
     commandsCtx w ++
     [selectColCommand pos colIndex; addColBeforeCommand;
      selectColCommand pos colIndex]).
Proof.
  intros Hview Hed Hx rowIndex colIndex pos.
  assert (Hlen : forall A (l : list A), 0 <= len l) by (intros; unfold len; lia).
  split; intros Hpast; unfold exec.
  - pose proof (Hlen _ (query_rows (contentWrapperRef w))) as Hnn.
    rewrite (onAddRow_run getPos w view xHandle Hview Hed Hx)
      by (fold rowIndex; lia).
    cbn. fold rowIndex pos.
    destruct (Z.eqb_spec (len (query_rows (contentWrapperRef w))) rowIndex)
      as [Heq | _]; [lia | reflexivity].
  - pose proof (Hlen _ (query_cols (contentWrapperRef w))) as Hnn.
    rewrite (onAddCol_run getPos w view xHandle Hview Hed Hx)
      by (fold colIndex; lia).
    cbn. fold colIndex pos.
    destruct (Z.eqb_spec (len (query_cols (contentWrapperRef w))) colIndex)
      as [Heq | _]; [lia | reflexivity].
Qed.

Lemma insert_past_the_end_witness :
  let w := example_world true (-1, -1) (7, 5) in
  (editorViewCtx w = Some {| editable := true |} /\
   xLineHandleRef w = Some {| dataset_show := Some "true" |} /\
   len (query_rows (contentWrapperRef w)) < 7 /\
   len (query_cols (contentWrapperRef w)) < 5) /\
  commandsCtx (exec (onAddRow (Some editorCtx) example_getPos) w) =
    [selectRowCommand 11 7; addRowBeforeCommand; selectRowCommand 11 7] /\
  commandsCtx (exec (onAddCol (Some editorCtx) example_getPos) w) =
    [selectColCommand 11 5; addColBeforeCommand; selectColCommand 11 5].
Proof.
  cbv zeta.
  pose proof (insert_past_the_end example_getPos
                (example_world true (-1, -1) (7, 5))
                {| editable := true |} {| dataset_show := Some "true" |}
                eq_refl eq_refl eq_refl) as [Hrow Hcol].
  split; [repeat split; cbn; lia |].
  split; [apply Hrow | apply Hcol]; cbn; lia.
Defined.

(** X4.  On a grid with no line to count (the content wrapper is not
    mounted, or holds no [tr]; for columns, the first [tr] has no cell)
    the count is [0], so index [0] is taken for the trailing edge: the
    first select command goes out with index [-1], followed by
    insert-after and a select at [0]. *)
Theorem insert_into_empty_grid
    (getPos : GetPos) (w : World) (view : EditorView) (xHandle : HTMLElement) :
  editorViewCtx w = Some view ->
  editable view = true ->
  xLineHandleRef w = Some xHandle ->
  let pos := grid_pos getPos in
  (query_rows (contentWrapperRef w) = [] ->
   fst (lineHoverIndex w) = 0 ->
   commandsCtx (exec (onAddRow (Some editorCtx) getPos) w) =
     commandsCtx w ++
     [selectRowCommand pos (-1); addRowAfterCommand; selectRowCommand pos 0])
  /\
  (query_cols (contentWrapperRef w) = [] ->
   snd (lineHoverIndex w) = 0 ->
   commandsCtx (exec (onAddCol (Some editorCtx) getPos) w) =
     commandsCtx w ++
     [selectColCommand pos (-1); addColAfterCommand; selectColCommand pos 0])
  /\
  (contentWrapperRef w = None ->
   query_rows (contentWrapperRef w) = [] /\
   query_cols (contentWrapperRef w) = []).
Proof.
  intros Hview Hed Hx pos.
  split; [| split].
  - intros Hrows Hidx. unfold exec.
    rewrite (onAddRow_run getPos w view xHandle Hview Hed Hx)
      by (rewrite Hidx; lia).
    cbn. rewrite Hrows, Hidx. reflexivity.
  - intros Hcols Hidx. unfold exec.
    rewrite (onAddCol_run getPos w view xHandle Hview Hed Hx)
      by (rewrite Hidx; lia).
    cbn. rewrite Hcols, Hidx. reflexivity.
  - intros Hcw. rewrite Hcw. split; reflexivity.
Qed.

Lemma insert_into_empty_grid_witness :
  let w := example_world_no_grid (0, 0) in
  (editorViewCtx w = Some {| editable := true |} /\
   xLineHandleRef w = Some {| dataset_show := Some "true" |} /\
   query_rows (contentWrapperRef w) = [] /\
   query_cols (contentWrapperRef w) = [] /\
   lineHoverIndex w = (0, 0)) /\
  commandsCtx (exec (onAddRow (Some editorCtx) example_getPos) w) =
    [selectRowCommand 11 (-1); addRowAfterCommand; selectRowCommand 11 0] /\
  commandsCtx (exec (onAddCol (Some editorCtx) example_getPos) w) =
    [selectColCommand 11 (-1); addColAfterCommand; selectColCommand 11 0].
Proof.
  cbv zeta.
  pose proof (insert_into_empty_grid example_getPos
                (example_world_no_grid (0, 0))
                {| editable := true |} {| dataset_show := Some "true" |}
                eq_refl eq_refl eq_refl) as [Hrow [Hcol _]].
  split; [repeat split |].
  split; [exact (Hrow eq_refl eq_refl) | exact (Hcol eq_refl eq_refl)].
Defined.

Lemma pointer_handlers_run (c : Ctx) (direction : Direction)
    (e : PointerEvent) (w : World) (view : EditorView) :
  editorViewCtx w = Some view ->
  editable view = true ->
  deleteSelected (Some c) e w =
    (Normal {| defaultPrevented := true; propagationStopped := true |},
     set_frames (frames w ++ [focusEditor])
       (set_commandsCtx (commandsCtx w ++ [deleteSelectedCellsCommand]) w))
  /\
  onAlign (Some c) direction e w =
    (Normal {| defaultPrevented := true; propagationStopped := true |},
     set_frames (frames w ++ [focusEditor])
       (set_commandsCtx (commandsCtx w ++ [setAlignCommand direction]) w))
  /\
  deleteSelected None e w = (Normal e, w)
  /\
  onAlign None direction e w = (Normal e, w).
Proof.
  intros Hview Hed.
  unfold deleteSelected, onAlign. run_handler.
  rewrite Hview. cbn. rewrite Hed. cbn. repeat split.
Qed.

(** X5.  On an editable surface [deleteSelected] and [onAlign] each
    send one command (delete-selected-cells, or set-align with the
    direction asked for), mark the pointer event as handled
    ([preventDefault], [stopPropagation]) and queue one frame callback
    that will focus the editor; nothing else changes.  Without a context
    they return the event untouched. *)
Theorem delete_and_align_on_editable (c : Ctx) (direction : Direction)
    (e : PointerEvent) (w : World) (view : EditorView) :
  editorViewCtx w = Some view ->
  editable view = true ->
  deleteSelected (Some c) e w =
    (Normal {| defaultPrevented := true; propagationStopped := true |},
     set_frames (frames w ++ [focusEditor])
       (set_commandsCtx (commandsCtx w ++ [deleteSelectedCellsCommand]) w))
  /\
  onAlign (Some c) direction e w =
    (Normal {| defaultPrevented := true; propagationStopped := true |},
     set_frames (frames w ++ [focusEditor])
       (set_commandsCtx (commandsCtx w ++ [setAlignCommand direction]) w))
  /\
  deleteSelected None e w = (Normal e, w)
  /\
  onAlign None direction e w = (Normal e, w).
Proof.
  intros Hview Hed.
  unfold deleteSelected, onAlign. run_handler.
  rewrite Hview. cbn. rewrite Hed. cbn. repeat split.
Qed.

Lemma delete_and_align_on_editable_witness :
  let w := example_world true (1, 1) (-1, -1) in
  editorViewCtx w = Some {| editable := true |} /\
  commandsCtx (exec (onAlign (Some editorCtx) left example_event) w) =
    [setAlignCommand left] /\
  frames (exec (deleteSelected (Some editorCtx) example_event) w) =
    [focusEditor].
Proof.
  cbv zeta.
  pose proof (delete_and_align_on_editable editorCtx left example_event
                (example_world true (1, 1) (-1, -1))
                {| editable := true |} eq_refl eq_refl) as [Hdel [Hal _]].
  split; [reflexivity |].
  unfold exec. rewrite Hdel, Hal. split; reflexivity.
Defined.

(** X6.  [selectCol] toggles the button group of the column handle for
    every column index, the first column and the index [-1] included:
    it has no counterpart of the [rowIndex > 0] test of [selectRow].
    A handle without a button group, or a handle that is not mounted,
    is left as it is. *)
Theorem selectCol_always_toggles (c : Ctx) (getPos : GetPos) (w : World) :
  let w' := exec (selectCol (Some c) getPos) w in
  colHandleRef w' = toggle_button_group (colHandleRef w)
  /\ button_group_visible (colHandleRef w') =
       option_map negb (button_group_visible (colHandleRef w))
  /\ (button_group_visible (colHandleRef w) = None ->
      colHandleRef w' = colHandleRef w)
  /\ rowHandleRef w' = rowHandleRef w.
Proof.
  cbv zeta. unfold exec. rewrite selectCol_run. cbn.
  split; [reflexivity |].
  split; [apply toggle_button_group_visible |].
  split; [| reflexivity].
  destruct (colHandleRef w) as [[[bg |]] |]; cbn; try reflexivity.
  discriminate.
Qed.

Lemma selectCol_always_toggles_witness :
  let w := example_world true (2, 0) (-1, -1) in
  button_group_visible (colHandleRef w) = Some false /\
  button_group_visible
    (colHandleRef (exec (selectCol (Some editorCtx) example_getPos) w)) =
    Some true.
Proof.
  cbv zeta. split; [reflexivity |].
  exact (proj1 (proj2 (selectCol_always_toggles editorCtx example_getPos
                         (example_world true (2, 0) (-1, -1))))).
Defined.

Lemma toggle_twice_visible (h : option HandleElement) :
  button_group_visible (toggle_button_group (toggle_button_group h)) =
  button_group_visible h.
Proof.
  rewrite !toggle_button_group_visible.
  destruct (button_group_visible h) as [[|] |]; reflexivity.
Qed.

(** X7.  Selecting the same line twice sends the select command twice and
    brings the button group back to the visibility it had: the toggle of
    the second gesture undoes the one of the first, for columns always
    and for rows whenever the first gesture toggled at all. *)
Theorem select_twice_restores_visibility
    (c : Ctx) (getPos : GetPos) (w : World) :
  (let w2 := exec (selectCol (Some c) getPos ;; selectCol (Some c) getPos) w in
   commandsCtx w2 =
     commandsCtx w ++
     [selectColCommand (grid_pos getPos) (snd (hoverIndex w));
      selectColCommand (grid_pos getPos) (snd (hoverIndex w))]
   /\ button_group_visible (colHandleRef w2) =
        button_group_visible (colHandleRef w))
  /\
  (let w2 := exec (selectRow (Some c) getPos ;; selectRow (Some c) getPos) w in
   commandsCtx w2 =
     commandsCtx w ++
     [selectRowCommand (grid_pos getPos) (fst (hoverIndex w));
      selectRowCommand (grid_pos getPos) (fst (hoverIndex w))]
   /\ button_group_visible (rowHandleRef w2) =
        button_group_visible (rowHandleRef w)).
Proof.
  split; cbv zeta; unfold exec, bind.
  - rewrite selectCol_run. rewrite selectCol_run. cbn.
    rewrite <- app_assoc. split; [reflexivity | apply toggle_twice_visible].
  - rewrite selectRow_run. cbv zeta.
    destruct (0 <? fst (hoverIndex w)) eqn:Hpos;
      rewrite selectRow_run; cbn; rewrite Hpos; cbn;
      rewrite <- app_assoc; (split; [reflexivity |]).
    + apply toggle_twice_visible.
    + reflexivity.
Qed.

Lemma select_twice_restores_visibility_witness :
  let w := example_world true (2, 1) (-1, -1) in
  let w2 := exec (selectRow (Some editorCtx) example_getPos ;;
                  selectRow (Some editorCtx) example_getPos) w in
  commandsCtx w2 = [selectRowCommand 11 2; selectRowCommand 11 2] /\
  button_group_visible (rowHandleRef w2) = Some false.
Proof.
  cbv zeta.
  exact (proj2 (select_twice_restores_visibility editorCtx example_getPos
                  (example_world true (2, 1) (-1, -1)))).
Defined.

(** Every handler extends the command log and keeps its inputs. *)
Lemma appends_nothing (n : nat) (pos : Z) (w : World) :
  appends_calls n pos w w.
Proof.
  exists []. rewrite app_nil_r. repeat split; [cbn; lia | constructor].
Qed.

Lemma same_inputs_refl (w : World) : same_inputs w w.
Proof. repeat split. Qed.

Lemma onAddRow_appends (ctx : option Ctx) (getPos : GetPos) (w : World) :
  let w' := exec (onAddRow ctx getPos) w in
  same_inputs w w' /\ appends_calls 3 (grid_pos getPos) w w'
  /\ frames w' = frames w.
Proof.
  cbv zeta.
  assert (Hidle : same_inputs w w /\
                  appends_calls 3 (grid_pos getPos) w w /\
                  frames w = frames w).
  { split; [apply same_inputs_refl
           | split; [apply appends_nothing | reflexivity]]. }
  destruct ctx as [[] |]; [| exact Hidle].
  destruct (xLineHandleRef w) as [xHandle |] eqn:Hx;
    [| unfold exec; rewrite onAddRow_guards by auto; exact Hidle].
  destruct (Z.ltb_spec (fst (lineHoverIndex w)) 0) as [Hneg | Hge];
    [unfold exec; rewrite onAddRow_guards by auto; exact Hidle |].
  destruct (editorViewCtx w) as [view |] eqn:Hview.
  - destruct (editable view) eqn:Hed.
    + unfold exec.
      rewrite (onAddRow_run getPos w view xHandle Hview Hed Hx Hge).
      cbn. split; [repeat split | split; [| reflexivity]].
      eexists. split; [reflexivity |].
      destruct (len (query_rows (contentWrapperRef w)) =? fst (lineHoverIndex w));
        cbn; (split; [lia | repeat constructor]).
    + unfold exec.
      rewrite (onAddRow_not_editable (Some editorCtx) getPos w view Hview Hed).
      exact Hidle.
  - unfold exec, onAddRow. run_handler. rewrite Hx. cbn.
    destruct (Z.ltb_spec (fst (lineHoverIndex w)) 0) as [Hneg | _]; [lia |].
    rewrite Hview. exact Hidle.
Qed.

Lemma onAddCol_appends (ctx : option Ctx) (getPos : GetPos) (w : World) :
  let w' := exec (onAddCol ctx getPos) w in
  same_inputs w w' /\ appends_calls 3 (grid_pos getPos) w w'
  /\ frames w' = frames w.
Proof.
  cbv zeta.
  assert (Hidle : same_inputs w w /\
                  appends_calls 3 (grid_pos getPos) w w /\
                  frames w = frames w).
  { split; [apply same_inputs_refl
           | split; [apply appends_nothing | reflexivity]]. }
  destruct ctx as [[] |]; [| exact Hidle].
  destruct (xLineHandleRef w) as [xHandle |] eqn:Hx;
    [| unfold exec; rewrite onAddCol_guards by auto; exact Hidle].
  destruct (Z.ltb_spec (snd (lineHoverIndex w)) 0) as [Hneg | Hge];
    [unfold exec; rewrite onAddCol_guards by auto; exact Hidle |].
  destruct (editorViewCtx w) as [view |] eqn:Hview.
  - destruct (editable view) eqn:Hed.
    + unfold exec.
      rewrite (onAddCol_run getPos w view xHandle Hview Hed Hx Hge).
      cbn. split; [repeat split | split; [| reflexivity]].
      eexists. split; [reflexivity |].
      destruct (len (query_cols (contentWrapperRef w)) =? snd (lineHoverIndex w));
        cbn; (split; [lia | repeat constructor]).
    + unfold exec.
      rewrite (onAddCol_not_editable (Some editorCtx) getPos w view Hview Hed).
      exact Hidle.
  - unfold exec, onAddCol. run_handler. rewrite Hx. cbn.
    destruct (Z.ltb_spec (snd (lineHoverIndex w)) 0) as [Hneg | _]; [lia |].
    rewrite Hview. exact Hidle.
Qed.

Lemma select_appends (ctx : option Ctx) (getPos : GetPos) (w : World) :
  (let w' := exec (selectRow ctx getPos) w in
   same_inputs w w' /\ appends_calls 1 (grid_pos getPos) w w'
   /\ frames w' = frames w)
  /\
  (let w' := exec (selectCol ctx getPos) w in
   same_inputs w w' /\ appends_calls 1 (grid_pos getPos) w w'
   /\ frames w' = frames w).
Proof.
  destruct ctx as [c |].
  - split; cbv zeta; unfold exec.
    + rewrite selectRow_run. cbv zeta.
      destruct (0 <? fst (hoverIndex w)); cbn;
        (split; [repeat split | split; [| reflexivity]]);
        eexists; (split; [reflexivity |]); cbn;
        (split; [lia | repeat constructor]).
    + rewrite selectCol_run. cbn.
      split; [repeat split | split; [| reflexivity]].
      eexists. split; [reflexivity |]. cbn.
      split; [lia | repeat constructor].
  - split; cbv zeta; cbn;
      (split; [apply same_inputs_refl
              | split; [apply appends_nothing | reflexivity]]).
Qed.

Lemma pointer_handlers_append (ctx : option Ctx) (getPos : GetPos)
    (direction : Direction) (e : PointerEvent) (w : World) :
  (let w' := exec (deleteSelected ctx e) w in
   same_inputs w w' /\ appends_calls 1 (grid_pos getPos) w w')
  /\
  (let w' := exec (onAlign ctx direction e) w in
   same_inputs w w' /\ appends_calls 1 (grid_pos getPos) w w').
Proof.
  assert (Hidle : same_inputs w w /\ appends_calls 1 (grid_pos getPos) w w)
    by (split; [apply same_inputs_refl | apply appends_nothing]).
  destruct ctx as [c |]; [| split; exact Hidle].
  destruct (editorViewCtx w) as [view |] eqn:Hview.
  - destruct (editable view) eqn:Hed.
    + destruct (pointer_handlers_run c direction e w view Hview Hed)
        as [Hdel [Hal _]].
      split; cbv zeta; unfold exec; [rewrite Hdel | rewrite Hal]; cbn;
        (split; [repeat split |]);
        eexists; (split; [reflexivity |]); cbn;
        (split; [lia | repeat constructor]).
    + split; cbv zeta; unfold exec;
        [rewrite (deleteSelected_not_editable (Some c) e w view Hview Hed)
        | rewrite (onAlign_not_editable (Some c) direction e w view Hview Hed)];
        exact Hidle.
  - split; cbv zeta; unfold exec, deleteSelected, onAlign; run_handler;
      rewrite Hview; exact Hidle.
Qed.

(** X8.  Whatever the world, a handler only adds calls at the end of
    what the command manager received: at most three for the insert
    handlers, at most one for the others, and every select command among
    them carries the same position [(getPos?.() ?? 0) + 1].  No handler
    writes the grid, the hover indices, or the editor view, and none
    focuses the editor itself. *)
Theorem handlers_append_only (ctx : option Ctx) (getPos : GetPos)
    (direction : Direction) (e : PointerEvent) (w : World) :
  let pos := grid_pos getPos in
  (same_inputs w (exec (onAddRow ctx getPos) w)
   /\ appends_calls 3 pos w (exec (onAddRow ctx getPos) w))
  /\ (same_inputs w (exec (onAddCol ctx getPos) w)
      /\ appends_calls 3 pos w (exec (onAddCol ctx getPos) w))
  /\ (same_inputs w (exec (selectRow ctx getPos) w)
      /\ appends_calls 1 pos w (exec (selectRow ctx getPos) w))
  /\ (same_inputs w (exec (selectCol ctx getPos) w)
      /\ appends_calls 1 pos w (exec (selectCol ctx getPos) w))
  /\ (same_inputs w (exec (deleteSelected ctx e) w)
      /\ appends_calls 1 pos w (exec (deleteSelected ctx e) w))
  /\ (same_inputs w (exec (onAlign ctx direction e) w)
      /\ appends_calls 1 pos w (exec (onAlign ctx direction e) w)).
Proof.
  cbv zeta.
  destruct (onAddRow_appends ctx getPos w) as [Hr1 [Hr2 _]].
  destruct (onAddCol_appends ctx getPos w) as [Hc1 [Hc2 _]].
  destruct (select_appends ctx getPos w) as [[Hsr1 [Hsr2 _]] [Hsc1 [Hsc2 _]]].
  destruct (pointer_handlers_append ctx getPos direction e w)
    as [[Hd1 Hd2] [Ha1 Ha2]].
  exact (conj (conj Hr1 Hr2)
           (conj (conj Hc1 Hc2)
              (conj (conj Hsr1 Hsr2)
                 (conj (conj Hsc1 Hsc2)
                    (conj (conj Hd1 Hd2) (conj Ha1 Ha2)))))).
Qed.

Lemma handlers_append_only_witness :
  let w := example_world true (1, 1) (3, 2) in
  same_inputs w (exec (onAddRow (Some editorCtx) example_getPos) w) /\
  appends_calls 3 11 w (exec (onAddRow (Some editorCtx) example_getPos) w).
Proof.
  cbv zeta.
  exact (proj1 (handlers_append_only (Some editorCtx) example_getPos center
                  example_event (example_world true (1, 1) (3, 2)))).
Defined.

End OperationExtra.

(* ================================================================== *)
(** ** Further properties of the block provider *)
(* ================================================================== *)

Module BlockProviderExtra.
Import BlockProvider.
Import BlockProviderSpec.

(** X9.  [hide()] writes the element's [data-show] and nothing else,
    and calling it again changes nothing more.  It is independent of
    [show(active)]: whichever of the two is called first, the provider
    ends in the same state, hidden and with the computation of [show]
    in flight (or, when the view is not there, hidden and with nothing
    started). *)
Theorem hide_idempotent (options : BlockProviderOptions)
    (active : ActiveNode) (w : World) :
  hide (exec hide w) = (Normal tt, exec hide w)
  /\ (style_left (element (exec hide w)) = style_left (element w)
      /\ style_top (element (exec hide w)) = style_top (element w)
      /\ parentNode (element (exec hide w)) = parentNode (element w)
      /\ computations (exec hide w) = computations w
      /\ activeNode (exec hide w) = activeNode w)
  /\ exec (show options active) (exec hide w) =
     exec hide (exec (show options active) w)
  /\ visible (dataset_show
                (element (exec hide (exec (show options active) w)))) = false.
Proof.
  split; [reflexivity | split; [repeat split |]].
  destruct (editorViewCtx w) as [view |] eqn:Hview.
  - rewrite (show_exec options active w view Hview).
    rewrite (show_exec options active (exec hide w) view) by exact Hview.
    split; reflexivity.
  - rewrite (proj1 (show_unmounted options active w Hview)).
    rewrite (proj1 (show_unmounted options active (exec hide w) Hview)).
    split; reflexivity.
Qed.

Lemma hide_idempotent_witness :
  let w := constructor example_element (Some example_view) true None in
  exec (show plain_options example_active) (exec hide w) =
  exec hide (exec (show plain_options example_active) w).
Proof.
  cbv zeta.
  exact (proj1 (proj2 (proj2 (hide_idempotent plain_options example_active
                                (constructor example_element
                                   (Some example_view) true None))))).
Defined.

(** X10.  What [show(active)] asks of the solver.  The floating element
    is the provider's content element and the context element is the
    active node's.  The rectangle is the one [getPosition] derives when
    that function was supplied, and the active element's own otherwise.
    The placement is the one of [floatingUIOptions] when these carry a
    [placement] key; otherwise what [getPlacement] derives when supplied;
    otherwise ['left']. *)
Theorem show_request (options : BlockProviderOptions)
    (active : ActiveNode) (w : World) (view : EditorView) :
  editorViewCtx w = Some view ->
  let deriveContext := derive_context options view active in
  exists c,
    computations (exec (show options active) w) = computations w ++ [c]
    /\ floating c = content options
    /\ contextElement (reference c) = el active
    /\ getBoundingClientRect (reference c) =
         match getPosition options with
         | Some f => derivedRect (f deriveContext)
         | None => rectOf (el active)
         end
    /\ placement (config c) =
         match option_map partial_placement (floatingUIOptions options) with
         | Some (present p) => p
         | _ =>
             Some match getPlacement options with
                  | Some f => f deriveContext
                  | None => "left"
                  end
         end
    /\ (editorDom deriveContext = dom view
        /\ blockDom deriveContext = content options
        /\ dc_active deriveContext = active).
Proof.
  intros Hview deriveContext. eexists.
  rewrite (show_exec options active w view Hview).
  cbn [computations set_computations]. split; [reflexivity |].
  cbn [floating reference config virtual_element contextElement
       getBoundingClientRect derive_context dc_active].
  split; [reflexivity | split; [reflexivity | split; [reflexivity |]]].
  split; [| repeat split].
  unfold solver_config. cbn [placement].
  destruct (floatingUIOptions options) as [fo |]; cbn; [| reflexivity].
  destruct (partial_placement fo); reflexivity.
Qed.

Lemma show_request_witness :
  let w := constructor example_element (Some example_view) true None in
  editorViewCtx w = Some example_view /\
  exists c,
    computations (exec (show derived_options example_active) w) = [c]
    /\ placement (config c) = Some "top"
    /\ getBoundingClientRect (reference c) =
         derivedRect {| rect_x := 6; rect_y := 20;
                        rect_width := 8; rect_height := 8 |}.
Proof.
  cbv zeta. split; [reflexivity |].
  destruct (show_request derived_options example_active
              (constructor example_element (Some example_view) true None)
              example_view eq_refl) as [c [Hc [_ [_ [Hrect [Hpl _]]]]]].
  exists c. split; [exact Hc | split; [exact Hpl | exact Hrect]].
Defined.

(** The handler bound by [#init]. *)
Lemma on_message_show_run (options : BlockProviderOptions)
    (active : ActiveNode) (w : World) (view : EditorView) :
  editorViewCtx w = Some view ->
  on_message options (msg_show active) w =
    (Normal tt,
     set_activeNode (Some active) (exec (show options active) w)).
Proof.
  intros Hview. unfold on_message, bind, modify, exec.
  rewrite (show_run options active w view Hview). reflexivity.
Qed.

(** X11.  A message of the service.  On ['show'], with the view mounted,
    the provider starts one computation and then records the node as its
    active node; the element itself is not touched, so it is displayed
    only once the computation is fulfilled.  On ['hide'] the element is
    hidden and the active node cleared; computations in flight stay. *)
Theorem on_message_effects (options : BlockProviderOptions)
    (active : ActiveNode) (w : World) (view : EditorView) :
  editorViewCtx w = Some view ->
  (let w' := exec (on_message options (msg_show active)) w in
   completion get_active w' = Normal (Some active)
   /\ List.length (computations w') = S (List.length (computations w))
   /\ element w' = element w)
  /\
  (let w' := exec (on_message options msg_hide) w in
   completion get_active w' = Normal None
   /\ dataset_show (element w') = Some "false"
   /\ computations w' = computations w).
Proof.
  intros Hview. split; cbv zeta.
  - unfold exec at 1 2 3.
    rewrite (on_message_show_run options active w view Hview).
    rewrite (show_exec options active w view Hview). cbn.
    rewrite last_length. repeat split.
  - repeat split.
Qed.

Lemma on_message_effects_witness :
  let w := constructor example_element (Some example_view) true None in
  let w' := exec (on_message plain_options (msg_show example_active)) w in
  editorViewCtx w = Some example_view /\
  completion get_active w' = Normal (Some example_active) /\
  dataset_show (element w') = Some "false".
Proof.
  cbv zeta. split; [reflexivity |].
  pose proof (proj1 (on_message_effects plain_options example_active
                       (constructor example_element (Some example_view) true None)
                       example_view eq_refl)) as [Hactive [_ Hel]].
  split; [exact Hactive |]. rewrite Hel. reflexivity.
Defined.

(** X12.  A ['show'] message that arrives while the editor view is not
    there: [show] throws before it reaches the solver, and the handler
    is left before the assignment that follows, so the provider keeps
    the active node it had and starts nothing. *)
Theorem on_message_show_unmounted (options : BlockProviderOptions)
    (active : ActiveNode) (w : World) :
  editorViewCtx w = None ->
  on_message options (msg_show active) w =
    (Throw "Context not found: editorView", w)
  /\ activeNode (exec (on_message options (msg_show active)) w) = activeNode w
  /\ computations (exec (on_message options (msg_show active)) w) =
       computations w.
Proof.
  intros Hview.
  assert (Hrun : on_message options (msg_show active) w =
                 (Throw "Context not found: editorView", w)).
  { unfold on_message, show, get_editorViewCtx, bind. rewrite Hview.
    reflexivity. }
  unfold exec. rewrite Hrun. repeat split.
Qed.

Lemma on_message_show_unmounted_witness :
  let w := set_activeNode (Some other_active)
             (constructor example_element None true None) in
  editorViewCtx w = None /\
  activeNode (exec (on_message plain_options (msg_show example_active)) w) =
    Some other_active.
Proof.
  cbv zeta. split; [reflexivity |].
  exact (proj1 (proj2 (on_message_show_unmounted plain_options example_active
                         (set_activeNode (Some other_active)
                            (constructor example_element None true None))
                         eq_refl))).
Defined.

Lemma nth_error_end2 {A} (l : list A) (a b : A) :
  nth_error ((l ++ [a]) ++ [b]) (S (List.length l)) = Some b.
Proof. rewrite <- (last_length l a). apply nth_error_end. Qed.

Lemma remove_nth_end2 {A} (l : list A) (a b : A) :
  remove_nth (S (List.length l)) ((l ++ [a]) ++ [b]) = l ++ [a].
Proof. rewrite <- (last_length l a). apply remove_nth_end. Qed.

(** X13.  Computations are not ordered: after [show(a1); show(a2)] both
    are in flight, and when the second is fulfilled before the first,
    the element ends at the coordinates of the first, the one asked for
    the node that is no longer the latest. *)
Theorem stale_fulfilment_wins (options : BlockProviderOptions)
    (a1 a2 : ActiveNode) (w : World) (view : EditorView) (x1 y1 x2 y2 : Z) :
  editorViewCtx w = Some view ->
  let i := List.length (computations w) in
  let final :=
    run options
      [ev_show a1; ev_show a2;
       ev_settle (S i) (fulfilled x2 y2);
       ev_settle i (fulfilled x1 y1)] w in
  style_left (element final) = Some (px x1)
  /\ style_top (element final) = Some (px y1)
  /\ dataset_show (element final) = Some "true"
  /\ computations final = computations w.
Proof.
  intros Hview i final. subst final i.
  unfold run. cbn [fold_left].
  rewrite (step_show options a1 w view Hview).
  rewrite (step_show options a2 _ view) by exact Hview.
  cbn [computations set_computations].
  erewrite (step_settle_fulfilled options _ (S _))
    by (cbn [computations set_computations]; apply nth_error_end2).
  cbn [computations set_computations set_element].
  rewrite remove_nth_end2.
  erewrite step_settle_fulfilled
    by (cbn [computations set_computations set_element]; apply nth_error_end).
  cbn. rewrite remove_nth_end. repeat split.
Qed.

Lemma stale_fulfilment_wins_witness :
  let w := constructor example_element (Some example_view) true None in
  let final :=
    run plain_options
      [ev_show example_active; ev_show other_active;
       ev_settle 1 (fulfilled 0 80); ev_settle 0 (fulfilled 0 20)] w in
  editorViewCtx w = Some example_view /\
  style_top (element final) = Some "20px".
Proof.
  cbv zeta. split; [reflexivity |].
  exact (proj1 (proj2 (stale_fulfilment_wins plain_options example_active
                         other_active
                         (constructor example_element (Some example_view) true None)
                         example_view 0 20 0 80 eq_refl))).
Defined.

(** A pass is a call of [update()] followed by a frame. *)
Lemma update_pass_exec (options : BlockProviderOptions) (w : World) :
  run options [ev_update; ev_frame] w = exec (update_pass options) w.
Proof. reflexivity. Qed.

(** X14.  The pass of [update()] that finds the view mounted and the
    service registered initializes the provider: the element is appended
    to the root given in the options, or else to the parent of the
    editor's DOM node, or else to [document.body]; the service is bound
    to this provider and has put its listeners on the element, which is
    now draggable.  The pass does not show the element, does not move it
    and asks nothing of the solver. *)
Theorem first_pass_initializes (options : BlockProviderOptions)
    (w : World) (view : EditorView) :
  initialized w = false ->
  frames w = [] ->
  editorViewCtx w = Some view ->
  blockServiceInstance w = true ->
  let w' := exec (update_pass options) w in
  completion (update_pass options) w = Normal tt
  /\ initialized w' = true
  /\ parentNode (element w') =
       Some match root options, dom_parentElement view with
            | Some r, _ => r
            | None, Some p => p
            | None, None => document_body
            end
  /\ draggable (element w') = true
  /\ eventListeners (element w') = true
  /\ service w' = Some blockService
  /\ notify (serviceState w') = Some thisProvider
  /\ dataset_show (element w') = dataset_show (element w)
  /\ style_left (element w') = style_left (element w)
  /\ style_top (element w') = style_top (element w)
  /\ computations w' = computations w
  /\ frames w' = [].
Proof.
  intros Hinit Hframes Hview Hreg. cbv zeta.
  unfold exec, completion.
  rewrite (update_pass_callback options w Hframes).
  rewrite (update_callback_uninitialized options w Hinit).
  rewrite (init_run options w view Hview Hreg). cbn.
  rewrite Hframes.
  destruct (root options) as [r |]; [repeat split |].
  destruct (dom_parentElement view) as [p |]; repeat split.
Qed.

Lemma first_pass_initializes_witness :
  let w := constructor example_element (Some example_view) true None in
  let w' := exec (update_pass derived_options) w in
  (initialized w = false /\ frames w = [] /\
   editorViewCtx w = Some example_view /\ blockServiceInstance w = true) /\
  initialized w' = true /\
  parentNode (element w') = Some 9%nat /\
  parentNode (element (exec (update_pass plain_options) w)) = Some 2%nat.
Proof.
  cbv zeta. split; [repeat split |].
  pose proof (first_pass_initializes derived_options
                (constructor example_element (Some example_view) true None)
                example_view eq_refl eq_refl eq_refl eq_refl)
    as [_ [Hinit [Hparent _]]].
  split; [exact Hinit | split; [exact Hparent | reflexivity]].
Defined.

(** X15.  When the view is mounted but the service is not registered
    yet, [#init] has already appended the element by the time the lookup
    of the service throws.  The pass swallows the exception: the element
    stays attached, but the provider is not initialized, holds no
    service, the service is not bound to it and the element is neither
    draggable nor listened to more than before. *)
Theorem pass_without_service_attaches_only (options : BlockProviderOptions)
    (w : World) (view : EditorView) :
  initialized w = false ->
  frames w = [] ->
  editorViewCtx w = Some view ->
  blockServiceInstance w = false ->
  let w' := exec (update_pass options) w in
  completion (update_pass options) w = Normal tt
  /\ initialized w' = false
  /\ parentNode (element w') =
       Some match root options, dom_parentElement view with
            | Some r, _ => r
            | None, Some p => p
            | None, None => document_body
            end
  /\ draggable (element w') = draggable (element w)
  /\ eventListeners (element w') = eventListeners (element w)
  /\ service w' = service w
  /\ serviceState w' = serviceState w
  /\ frames w' = [].
Proof.
  intros Hinit Hframes Hview Hreg. cbv zeta.
  unfold exec, completion.
  rewrite (update_pass_callback options w Hframes).
  rewrite (update_callback_uninitialized options w Hinit).
  rewrite (init_unregistered options w view Hview Hreg). cbn.
  rewrite Hinit, Hframes.
  destruct (root options) as [r |]; [repeat split |].
  destruct (dom_parentElement view) as [p |]; repeat split.
Qed.

Lemma pass_without_service_attaches_only_witness :
  let w := constructor example_element (Some example_view) false None in
  let w' := exec (update_pass plain_options) w in
  (initialized w = false /\ frames w = [] /\
   editorViewCtx w = Some example_view /\ blockServiceInstance w = false) /\
  initialized w' = false /\
  parentNode (element w') = Some 2%nat /\
  draggable (element w') = false.
Proof.
  cbv zeta. split; [repeat split |].
  pose proof (pass_without_service_attaches_only plain_options
                (constructor example_element (Some example_view) false None)
                example_view eq_refl eq_refl eq_refl eq_refl)
    as [_ [Hinit [Hparent [Hdrag _]]]].
  split; [exact Hinit | split; [exact Hparent | exact Hdrag]].
Defined.

(** X16.  [destroy()] does not reset [#initialized]: on a provider that
    was initialized, a pass of [update()] after [destroy()] does
    nothing.  The element stays detached and the service unbound: the
    provider cannot be brought back by [update()]. *)
Theorem destroyed_provider_stays_down (options : BlockProviderOptions)
    (w : World) :
  initialized w = true ->
  frames w = [] ->
  let down := step options ev_destroy w in
  run options [ev_destroy; ev_update; ev_frame] w = down
  /\ initialized down = true
  /\ parentNode (element down) = None
  /\ (service w <> None ->
      notify (serviceState down) = None
      /\ eventListeners (element down) = false).
Proof.
  intros Hinit Hframes. cbv zeta.
  assert (Hdown : step options ev_destroy w = exec destroy w) by reflexivity.
  assert (Hi : initialized (exec destroy w) = true).
  { rewrite <- Hdown. apply step_initialized, Hinit. }
  assert (Hf : frames (exec destroy w) = []).
  { unfold exec. rewrite destroy_run. cbn.
    destruct (service w); exact Hframes. }
  split; [| split; [rewrite Hdown; exact Hi | split]].
  - change (run options [ev_destroy; ev_update; ev_frame] w)
      with (run options [ev_update; ev_frame] (step options ev_destroy w)).
    rewrite Hdown, update_pass_exec. unfold exec at 1.
    rewrite (update_pass_callback options _ Hf).
    rewrite (update_callback_initialized options _ Hi). reflexivity.
  - rewrite Hdown. unfold exec. rewrite destroy_run. cbn.
    destruct (service w); reflexivity.
  - intros Hs. rewrite Hdown. unfold exec. rewrite destroy_run. cbn.
    destruct (service w); [split; reflexivity | contradiction Hs; reflexivity].
Qed.

Lemma destroyed_provider_stays_down_witness :
  let w := run plain_options [ev_update; ev_frame]
             (constructor example_element (Some example_view) true None) in
  (initialized w = true /\ frames w = []) /\
  run plain_options [ev_destroy; ev_update; ev_frame] w =
    step plain_options ev_destroy w /\
  notify (serviceState (step plain_options ev_destroy w)) = None.
Proof.
  cbv zeta. split; [split; reflexivity |].
  pose proof (destroyed_provider_stays_down plain_options
                (run plain_options [ev_update; ev_frame]
                   (constructor example_element (Some example_view) true None))
                eq_refl eq_refl) as [Hrun _].
  split; [exact Hrun | reflexivity].
Defined.

(** X17.  Only [hide()], a fulfilled computation and a ['hide'] message
    write the element's [data-show]; no other event does, and none of
    these others moves the element either: [update()], its frame
    callback, [destroy()], [show()] itself, a ['show'] message, a
    rejected computation, and whatever happens around the provider leave
    the flag and the [left] and [top] styles as they are. *)
Theorem visibility_writers (options : BlockProviderOptions)
    (ev : Event) (w : World) :
  writes_data_show ev = false ->
  let w' := step options ev w in
  dataset_show (element w') = dataset_show (element w)
  /\ style_left (element w') = style_left (element w)
  /\ style_top (element w') = style_top (element w).
Proof.
  intros Hev. cbv zeta. unfold step.
  destruct ev as [| | active | | | i s | message | view | | n |];
    cbn [handle]; try discriminate Hev; try (repeat split; fail).
  - unfold exec. rewrite destroy_run. cbn.
    destruct (service w); repeat split.
  - destruct (show_keeps options active w) as [_ [_ [_ Hel]]].
    rewrite Hel. repeat split.
  - unfold exec. rewrite run_frame_run.
    destruct (frames w) as [| [] rest]; [repeat split |].
    fold (exec (update_callback options) (set_frames rest w)).
    rewrite update_callback_exec. cbn.
    destruct (initialized w); [repeat split |].
    destruct (editorViewCtx w) as [v |] eqn:Hview; [| repeat split].
    destruct (blockServiceInstance w) eqn:Hreg; unfold exec.
    + rewrite (init_run options (set_frames rest w) v Hview Hreg).
      repeat split.
    + rewrite (init_unregistered options (set_frames rest w) v Hview Hreg).
      repeat split.
  - destruct s as [x y | reason]; [discriminate Hev |].
    unfold_provider. cbn.
    destruct (nth_error (computations w) i); repeat split.
  - destruct message as [| active]; [discriminate Hev |].
    unfold service_notify, exec, bind, gets. cbn.
    destruct (notify (serviceState w)) as [[| n] |]; try (repeat split; fail).
    unfold on_message, bind, modify.
    destruct (show_keeps options active w) as [_ [_ [_ Hel]]].
    unfold exec in Hel.
    destruct (show options active w) as [[[] | reason] w1]; cbn in *;
      rewrite Hel; repeat split.
Qed.

Lemma visibility_writers_witness :
  let w := constructor example_element (Some example_view) true None in
  writes_data_show ev_frame = false /\
  dataset_show (element (run plain_options [ev_update; ev_frame] w)) =
    Some "false".
Proof.
  cbv zeta. split; [reflexivity |].
  exact (proj1 (visibility_writers plain_options ev_frame
                  (step plain_options ev_update
                     (constructor example_element (Some example_view) true None))
                  eq_refl)).
Defined.

Lemma run_app (options : BlockProviderOptions) (evs1 evs2 : list Event)
    (w : World) :
  run options (evs1 ++ evs2) w = run options evs2 (run options evs1 w).
Proof. apply fold_left_app. Qed.

(** [n] calls of [update()] queue [n] callbacks. *)
Lemma run_updates (options : BlockProviderOptions) (n : nat) (w : World) :
  run options (repeat ev_update n) w =
  set_frames (frames w ++ repeat updateCallback n) w.
Proof.
  revert w. induction n as [| n IH]; intros w.
  - cbn. rewrite app_nil_r. destruct w; reflexivity.
  - change (run options (repeat ev_update (S n)) w)
      with (run options (repeat ev_update n) (step options ev_update w)).
    rewrite IH. cbn. rewrite <- app_assoc. reflexivity.
Qed.

(** On an initialized provider the queued callbacks just drain. *)
Lemma run_frames_initialized (options : BlockProviderOptions) (n : nat)
    (w : World) :
  initialized w = true ->
  frames w = repeat updateCallback n ->
  run options (repeat ev_frame n) w = set_frames [] w.
Proof.
  revert w. induction n as [| n IH]; intros w Hinit Hframes.
  - cbn in *. destruct w; cbn in *; subst; reflexivity.
  - change (run options (repeat ev_frame (S n)) w)
      with (run options (repeat ev_frame n) (step options ev_frame w)).
    assert (Hstep : step options ev_frame w =
                    set_frames (repeat updateCallback n) w).
    { unfold step, handle, exec. rewrite run_frame_run, Hframes.
      cbn [repeat].
      rewrite update_callback_initialized by exact Hinit. reflexivity. }
    rewrite Hstep. rewrite IH by (cbn; auto). reflexivity.
Qed.

(** X18.  [update()] only queues a callback, and the callback looks at
    [#initialized] when it runs: however many times [update()] is called
    before the next frames, the callbacks together do what a single pass
    does.  The first one initializes, the others find the provider
    initialized and do nothing. *)
Theorem queued_updates_initialize_once (options : BlockProviderOptions)
    (n : nat) (w : World) (view : EditorView) :
  initialized w = false ->
  frames w = [] ->
  editorViewCtx w = Some view ->
  blockServiceInstance w = true ->
  run options (repeat ev_update (S n) ++ repeat ev_frame (S n)) w =
    exec (update_pass options) w
  /\ initialized (exec (update_pass options) w) = true.
Proof.
  intros Hinit Hframes Hview Hreg.
  assert (Hpass : exec (update_pass options) w =
                  set_initialized true (exec (init options) w)).
  { unfold exec. rewrite (update_pass_callback options w Hframes).
    rewrite (update_callback_uninitialized options w Hinit).
    rewrite (init_run options w view Hview Hreg). reflexivity. }
  split; [| rewrite Hpass; reflexivity].
  rewrite run_app, run_updates, Hframes. cbn [app].
  change (run options (repeat ev_frame (S n)) ?w0)
    with (run options (repeat ev_frame n) (step options ev_frame w0)).
  assert (Hstep :
    step options ev_frame (set_frames (repeat updateCallback (S n)) w) =
    set_frames (repeat updateCallback n)
      (set_initialized true (exec (init options) w))).
  { unfold step, handle, exec. rewrite run_frame_run. cbn [frames set_frames repeat].
    rewrite update_callback_uninitialized by exact Hinit.
    rewrite (init_run options _ view) by (cbn; assumption).
    rewrite (init_run options w view Hview Hreg). reflexivity. }
  rewrite Hstep.
  rewrite run_frames_initialized by reflexivity.
  rewrite Hpass. unfold exec.
  rewrite (init_run options w view Hview Hreg). cbn [snd].
  unfold set_frames, set_initialized, set_element, set_service,
    set_serviceState. cbn.
  rewrite Hframes. reflexivity.
Qed.

Lemma queued_updates_initialize_once_witness :
  let w := constructor example_element (Some example_view) true None in
  (initialized w = false /\ frames w = [] /\
   editorViewCtx w = Some example_view /\ blockServiceInstance w = true) /\
  run plain_options
    [ev_update; ev_update; ev_update; ev_frame; ev_frame; ev_frame] w =
  exec (update_pass plain_options) w.
Proof.
  cbv zeta. split; [repeat split |].
  exact (proj1 (queued_updates_initialize_once plain_options 2
                  (constructor example_element (Some example_view) true None)
                  example_view eq_refl eq_refl eq_refl eq_refl)).
Defined.

End BlockProviderExtra.
